(** * AXFR2Route53: zone transfer to Route 53 change batches

    A shallow embedding of [AXFR2Route53.update_records]
    (src/AXFR2Route53.py), from the point where the zone transfer has
    returned, together with the properties of its aggregation, change
    building, batching and submission stages. *)

From Stdlib Require Import ZArith Decimal DecimalString DecimalZ DecimalPos.
From stdpp Require Import gmap strings list fin_maps.

Local Open Scope string_scope.
Local Open Scope list_scope.
Local Open Scope nat_scope.

(** ** Python built-ins used by the script *)

Module Py.

(** [str(n)] for an integer: decimal digits, with a leading minus sign for
    negative numbers. *)
Definition str (n : Z) : string := NilZero.string_of_int (Z.to_int n).

(** [int(s)] for a string: [None] stands for [ValueError].  Accepted are an
    optional minus sign followed by decimal digits, which covers every
    string [str] produces; the surrounding blanks and the plus sign that
    [int] tolerates as well are not modelled. *)
Definition int (s : string) : option Z :=
  Z.of_int <$> NilZero.int_of_string s.

(** The generator behind [xrange(start, stop, step)] for a positive step:
    it yields [start], [start + step], ... while the value is below [stop].
    [fuel] bounds the number of values; [stop - start] is always enough. *)
Fixpoint xrange_from (fuel start stop step : nat) : list nat :=
  match fuel with
  | O => []
  | S fuel' =>
      if start <? stop
      then start :: xrange_from fuel' (start + step) stop step
      else []
  end.

Definition xrange (start stop step : nat) : list nat :=
  xrange_from (stop - start) start stop step.

(** The slice [l[a:b]] for indices [0 <= a <= b]; a slice never raises, it
    is cut at the end of the list. *)
Definition slice {A} (l : list A) (a b : nat) : list A :=
  take (b - a) (drop a l).

End Py.

(** ** The part of dnspython the script relies on *)

Module Dns.

(** [dns.rdataclass] and [dns.rdatatype] are integer constants (their
    IANA numbers). *)
Definition IN : N := 1.
Definition A : N := 1.
Definition NS : N := 2.
Definition CNAME : N := 5.
Definition SOA : N := 6.
Definition PTR : N := 12.
Definition MX : N := 15.
Definition TXT : N := 16.
Definition AAAA : N := 28.
Definition SRV : N := 33.
Definition SPF : N := 99.

(** A record set: class, type, the TTL shared by its records, and the
    records themselves, each kept as the text [str(rds)] renders. *)
Record Rdataset := {
  rdclass : N;
  rdtype : N;
  ttl : Z;
  items : list string
}.

(** A node holds the record sets of one owner name. *)
Abbreviation Node := (list Rdataset).

(** [node.get_rdataset(rdclass, rdtype)]: the first record set of that
    class and type, [None] when the node has none. *)
Fixpoint get_rdataset (node : Node) (c t : N) : option Rdataset :=
  match node with
  | [] => None
  | rds :: rest =>
      if (rdclass rds =? c)%N && (rdtype rds =? t)%N
      then Some rds
      else get_rdataset rest c t
  end.

(** A transferred zone, as the script sees it: [z.nodes.items()], the
    (owner name, node) pairs in the order the dictionary yields them, the
    owner name already rendered by [str(name)].  The apex is rendered
    ["@"]. *)
Abbreviation Zone := (list (string * Node)).

End Dns.

(** ** The Route 53 client *)

Module Route53.

(** One entry of [ResourceRecords]: [{'Value': record}]. *)
Record ResourceRecord := { Value : string }.

Inductive action := UPSERT | CREATE | DELETE.

(** [{'Name', 'Type', 'TTL', 'ResourceRecords'}]. *)
Record ResourceRecordSet := {
  Name : string;
  Type_ : string;
  TTL : Z;
  ResourceRecords : list ResourceRecord
}.

(** One element of [dns_changes]. *)
Record Change := {
  Action : action;
  RRSet : ResourceRecordSet
}.

(** One call of [change_resource_record_sets]. *)
Record Request := {
  HostedZoneId : string;
  Changes : list Change
}.

(** The destination as the script observes it: given the requests made so
    far and the next one, it accepts ([true]) or the call raises
    ([false]). *)
Definition client := list Request → Request → bool.

End Route53.

(** ** The script *)

Module AXFR2Route53.

Import Route53.

(** The parsed command line.  The run is modelled from the moment the
    transfer has answered, so server and domain are present; the hosted
    zone is [None] when [-z] was not given. *)
Record Options := {
  dns_server : string;
  domain : string;
  recordtype : string;
  comment : string;
  hostedzone : option string
}.

(** A value of [adict]: [{'records': [...], 'ttl': '...'}]. *)
Record Entry := {
  records : list string;
  ttl : string
}.

(** How a run ends. *)
Inductive exit_reason :=
  | NoHostedZone
  | NoRecordsFound
  | UnsupportedType (t : string)
  | NoRecordsProcessed (t : string).

Inductive outcome :=
  | Finished
  | SystemExit (why : exit_reason)
  | ValueError
  | ClientError.

(** The conditional chain of lines 76-105. *)
Definition rdtype_of (rt : string) : option (N * N) :=
  if String.eqb rt "A" then Some (Dns.A, Dns.IN)
  else if String.eqb rt "AAAA" then Some (Dns.AAAA, Dns.IN)
  else if String.eqb rt "CNAME" then Some (Dns.CNAME, Dns.IN)
  else if String.eqb rt "MX" then Some (Dns.MX, Dns.IN)
  else if String.eqb rt "NS" then Some (Dns.NS, Dns.IN)
  else if String.eqb rt "PTR" then Some (Dns.PTR, Dns.IN)
  else if String.eqb rt "SPF" then Some (Dns.SPF, Dns.IN)
  else if String.eqb rt "TXT" then Some (Dns.TXT, Dns.IN)
  else if String.eqb rt "SRV" then Some (Dns.SRV, Dns.IN)
  else None.

(** Line 116: [str(name) + "." + domain + "."]. *)
Definition recordname (dom name : string) : string :=
  ((name +:+ ".") +:+ dom) +:+ ".".

(** The body of the inner loop, lines 113-123, for one record [rds] of a
    record set with TTL [rttl] under owner [name]. *)
Definition add_record (dom name : string) (rttl : Z)
    (adict : gmap string Entry) (rds : string) : gmap string Entry :=
  if String.eqb name "@" then adict
  else
    let key := recordname dom name in
    match adict !! key with
    | Some e =>
        <[key := {| records := records e ++ [rds]; ttl := ttl e |}]> adict
    | None =>
        <[key := {| records := [rds]; ttl := Py.str rttl |}]> adict
    end.

(** The body of the outer loop, lines 107-123, for one node. *)
Definition add_node (dom : string) (rdtypevar rdclassvar : N)
    (adict : gmap string Entry) (item : string * Dns.Node)
    : gmap string Entry :=
  match Dns.get_rdataset item.2 rdclassvar rdtypevar with
  | None => adict
  | Some rdataset =>
      match Dns.items rdataset with
      | [] => adict
      | _ => foldl (add_record dom item.1 (Dns.ttl rdataset))
               adict (Dns.items rdataset)
      end
  end.

(** Lines 106-123: [adict] after the walk over the zone. *)
Definition aggregate (dom : string) (rdtypevar rdclassvar : N)
    (z : Dns.Zone) : gmap string Entry :=
  foldl (add_node dom rdtypevar rdclassvar) ∅ z.

(** One record as the inner loop meets it: the owner name of its node,
    the TTL of its record set, and its value. *)
Abbreviation Record_ := (string * Z * string)%type.

(** The loop body on such a record. *)
Definition feed (dom : string) (adict : gmap string Entry) (r : Record_)
    : gmap string Entry :=
  add_record dom r.1.1 r.1.2 adict r.2.

(** The records the two loops walk through, in the order of the walk:
    for each item of [z.nodes.items()], the records of the one record set
    [get_rdataset] returns for it. *)
Definition node_records (rdtypevar rdclassvar : N)
    (item : string * Dns.Node) : list Record_ :=
  match Dns.get_rdataset item.2 rdclassvar rdtypevar with
  | None => []
  | Some rdataset =>
      (λ v, (item.1, Dns.ttl rdataset, v)) <$> Dns.items rdataset
  end.

Definition zone_records (rdtypevar rdclassvar : N) (z : Dns.Zone)
    : list Record_ :=
  z ≫= node_records rdtypevar rdclassvar.

Section Pipeline.

(** [adict.iteritems()]: the items of the dictionary in the order the
    interpreter walks it.  A Python 2 [dict] fixes no particular order, so
    the order is a parameter of the run. *)
Variable iteritems : gmap string Entry → list (string * Entry).

(** The body of the loop of lines 125-136 for one item of [adict]; [None]
    when [int] raises. *)
Definition change_of (rt : string) (item : string * Entry)
    : option Change :=
  let ResourceRecordList := (λ record, {| Value := record |}) <$> records item.2 in
  n ← Py.int (ttl item.2);
  Some {| Action := UPSERT;
          RRSet := {| Name := item.1;
                      Type_ := rt;
                      TTL := n;
                      ResourceRecords := ResourceRecordList |} |}.

(** Lines 125-136: [dns_changes], one element appended per item. *)
Definition build_changes (rt : string) (adict : gmap string Entry)
    : option (list Change) :=
  mapM (change_of rt) (iteritems adict).

(** Lines 145-161: the lists handed to [change_resource_record_sets], in
    the order of the calls. *)
Definition batches (dns_changes : list Change) : list (list Change) :=
  if (98 <? length dns_changes)%nat
  then (λ x, Py.slice dns_changes x (x + 98))
         <$> Py.xrange 0 (length dns_changes) 98
  else [dns_changes].

(** The calls of lines 151-156 and 158-160.  [made] holds the requests
    issued so far; a call that raises ends the run, the request that
    raised being the last one recorded. *)
Fixpoint submit (route53 : client) (hz : string)
    (chunks : list (list Change)) (made : list Request)
    : list Request * outcome :=
  match chunks with
  | [] => (made, Finished)
  | chunk :: rest =>
      let req := {| HostedZoneId := hz; Changes := chunk |} in
      if route53 made req
      then submit route53 hz rest (made ++ [req])
      else (made ++ [req], ClientError)
  end.

(** What a run leaves behind: the requests issued to Route 53, the
    list [dns_changes] as the loop of lines 125-136 completed it (empty
    when the run stopped before), and how the run ended. *)
Record Run := {
  calls : list Request;
  changes : list Change;
  result : outcome
}.

Definition stop (why : outcome) : Run :=
  {| calls := []; changes := []; result := why |}.

(** [update_records], lines 59-161, on the zone [z] the transfer
    returned. *)
Definition update_records (opts : Options) (z : Dns.Zone)
    (route53 : client) : Run :=
  match hostedzone opts with
  | None => stop (SystemExit NoHostedZone)
  | Some hz =>
      if (length z =? 0)%nat then stop (SystemExit NoRecordsFound)
      else
        match rdtype_of (recordtype opts) with
        | None => stop (SystemExit (UnsupportedType (recordtype opts)))
        | Some (rdtypevar, rdclassvar) =>
            let adict := aggregate (domain opts) rdtypevar rdclassvar z in
            match build_changes (recordtype opts) adict with
            | None => stop ValueError
            | Some dns_changes =>
                if (length dns_changes =? 0)%nat
                then stop (SystemExit (NoRecordsProcessed (recordtype opts)))
                else
                  let r := submit route53 hz (batches dns_changes) [] in
                  {| calls := r.1; changes := dns_changes; result := r.2 |}
            end
        end
  end.

End Pipeline.

End AXFR2Route53.

(** ** Notions the properties are stated with *)

Module Spec.

Import AXFR2Route53.

(** The record types the script accepts. *)
Definition supported_types : list string :=
  ["A"; "AAAA"; "CNAME"; "MX"; "NS"; "PTR"; "SPF"; "TXT"; "SRV"].

(** The records of a sequence that end up under the key [k]. *)
Definition feeds (dn k : string) (r : Record_) : Prop :=
  r.1.1 ≠ "@" ∧ recordname dn r.1.1 = k.

#[global] Instance feeds_dec dn k r : Decision (feeds dn k r).
Proof. unfold feeds. apply _. Defined.

(** The records of a sequence owned by [name], in the order they come. *)
Definition owned_by (name : string) (rs : list Record_) : list Record_ :=
  filter (λ r, r.1.1 = name) rs.

(** The owner names of a sequence other than the apex marker. *)
Definition owners (rs : list Record_) : list string :=
  filter (λ n, n ≠ "@") ((λ r : Record_, r.1.1) <$> rs).



(** The number of batches [ceil(L/B)]. *)
Definition ceil_div (L B : nat) : nat := (L + B - 1) / B.

End Spec.

(** ** Sample data: the scenario of a zone with two hosts *)

Module Sample.

Import AXFR2Route53 Route53.

Definition a_records (rttl : Z) (values : list string) : Dns.Rdataset :=
  {| Dns.rdclass := Dns.IN; Dns.rdtype := Dns.A;
     Dns.ttl := rttl; Dns.items := values |}.

Definition soa_record : Dns.Rdataset :=
  {| Dns.rdclass := Dns.IN; Dns.rdtype := Dns.SOA; Dns.ttl := 3600%Z;
     Dns.items := ["ns1.example.com. admin.example.com. 1 2 3 4 5"] |}.

(** The apex with its SOA and an address, [host1] with two addresses and
    [host2] with one. *)
Definition zone : Dns.Zone :=
  [ ("@", [soa_record; a_records 300 ["192.0.2.1"]]);
    ("host1", [a_records 300 ["10.0.0.1"; "10.0.0.2"]]);
    ("host2", [a_records 60 ["10.0.0.3"]]) ].

(** A zone of the apex and one host. *)
Definition zone_one_host : Dns.Zone :=
  [ ("@", [soa_record]); ("host2", [a_records 60 ["10.0.0.3"]]) ].

(** A zone that has nodes, none of them with an address record. *)
Definition zone_without_addresses : Dns.Zone := [ ("@", [soa_record]) ].

Definition options (rt : string) : Options :=
  {| dns_server := "192.0.2.53"; domain := "example.com";
     recordtype := rt; comment := "Managed by AXFR2Route53.py";
     hostedzone := Some "Z1234567891011" |}.

(** The same command line without [-z]. *)
Definition options_without_zone (rt : string) : Options :=
  {| dns_server := "192.0.2.53"; domain := "example.com";
     recordtype := rt; comment := "Managed by AXFR2Route53.py";
     hostedzone := None |}.

(** A destination that accepts every request. *)
Definition accepting : client := λ _ _, true.

End Sample.

(** ** Further notions: what a node and a change list hold *)

Module Views.

Import AXFR2Route53 Route53.

(** The entry a node gives rise to on its own: nothing when it has no
    record set of the class and type, or an empty one. *)
Definition entry_of_node (tv cv : N) (node : Dns.Node) : option Entry :=
  match Dns.get_rdataset node cv tv with
  | Some rdataset =>
      match Dns.items rdataset with
      | [] => None
      | _ => Some {| records := Dns.items rdataset;
                     ttl := Py.str (Dns.ttl rdataset) |}
      end
  | None => None
  end.

(** The number of values a dictionary, respectively a change list,
    carries in all. *)
Definition value_count (items : list (string * Entry)) : nat :=
  sum_list_with (λ item, length (records item.2)) items.

Definition change_value_count (cs : list Change) : nat :=
  sum_list_with (λ c, length (ResourceRecords (RRSet c))) cs.

(** The (name, value) pairs a dictionary, a change list and a record
    sequence stand for; for records, the name is the key a non-apex owner
    renders to, and records of the apex are left out. *)
Definition item_pairs (items : list (string * Entry))
    : list (string * string) :=
  items ≫= λ item, (λ v, (item.1, v)) <$> records item.2.

Definition change_pairs (cs : list Change) : list (string * string) :=
  cs ≫= λ c, (λ rr, (Name (RRSet c), Value rr))
               <$> ResourceRecords (RRSet c).

Definition record_pairs (dn : string) (rs : list Record_)
    : list (string * string) :=
  (λ r : Record_, (recordname dn r.1.1, r.2))
    <$> filter (λ r : Record_, r.1.1 ≠ "@") rs.

End Views.

(** ** The end of a run *)

Module Closing.

Import Route53 AXFR2Route53.

(** Lines 137-161 on the change list [dns_changes]: the guard of line
    137, then the requests of lines 145-161; the requests made and how
    the run ends. *)
Definition finish (route53 : client) (hz rt : string)
    (dns_changes : list Change) : list Request * outcome :=
  if (length dns_changes =? 0)%nat
  then ([], SystemExit (NoRecordsProcessed rt))
  else submit route53 hz (batches dns_changes) [].

End Closing.

(** ** The whole of [update_records], transfer included *)

Module Cli.

Import Route53 AXFR2Route53.

(** What [parse_args] hands over: [-s], [-d] and [-z] are [None] when
    not given; [-t] and [-c] have defaults, so they are always strings. *)
Record Namespace := {
  dns_server : option string;
  domain : option string;
  recordtype : string;
  comment : string;
  hostedzone : option string
}.

(** How [dnszone.from_xfr(query.xfr(server, domain))] ends: with a zone,
    with the [AttributeError] the script catches, or with any other
    exception, which the script lets through. *)
Inductive xfr_result :=
  | Transferred (z : Dns.Zone)
  | AttributeError
  | OtherException.

(** The name server as the script observes it. *)
Definition resolver := string → option string → xfr_result.

(** What the run does to the outside, in order. *)
Inductive event :=
  | Xfr (server : string) (dom : option string)
  | Submit (req : Request).

(** How the whole run ends: the two exits of lines 51 and 57, an
    exception of the transfer or of the concatenation of line 116, or one
    of the endings of lines 59-161. *)
Inductive ending :=
  | NoDNSServer
  | NoDomain
  | TransferException
  | TypeError
  | Ended (o : outcome).

Record Trace := {
  events : list event;
  final : ending
}.

(** A left fold whose step may raise. *)
Fixpoint foldl_exc {A B} (f : A → B → option A) (a : A) (l : list B)
    : option A :=
  match l with
  | [] => Some a
  | x :: l' =>
      match f a x with
      | Some a' => foldl_exc f a' l'
      | None => None
      end
  end.

(** Lines 113-123 with the domain as parsed: for a name other than ["@"]
    the concatenation of line 116 raises [TypeError] when the domain is
    [None]. *)
Definition add_record (dom : option string) (name : string) (rttl : Z)
    (adict : gmap string Entry) (rds : string)
    : option (gmap string Entry) :=
  if String.eqb name "@" then Some adict
  else
    match dom with
    | None => None
    | Some d => Some (AXFR2Route53.add_record d name rttl adict rds)
    end.

(** Lines 107-123. *)
Definition add_node (dom : option string) (rdtypevar rdclassvar : N)
    (adict : gmap string Entry) (item : string * Dns.Node)
    : option (gmap string Entry) :=
  match Dns.get_rdataset item.2 rdclassvar rdtypevar with
  | None => Some adict
  | Some rdataset =>
      match Dns.items rdataset with
      | [] => Some adict
      | _ => foldl_exc (add_record dom item.1 (Dns.ttl rdataset))
               adict (Dns.items rdataset)
      end
  end.

(** Lines 106-123. *)
Definition aggregate (dom : option string) (rdtypevar rdclassvar : N)
    (z : Dns.Zone) : option (gmap string Entry) :=
  foldl_exc (add_node dom rdtypevar rdclassvar) ∅ z.

Definition halt (seen : list event) (how : ending) : Trace :=
  {| events := seen; final := how |}.

(** [update_records], lines 45-161. *)
Definition update_records
    (iteritems : gmap string Entry → list (string * Entry))
    (options : Namespace) (xfr : resolver) (route53 : client) : Trace :=
  match dns_server options with
  | None => halt [] NoDNSServer
  | Some server =>
      let seen := [Xfr server (domain options)] in
      match xfr server (domain options) with
      | AttributeError => halt seen NoDomain
      | OtherException => halt seen TransferException
      | Transferred z =>
          match hostedzone options with
          | None => halt seen (Ended (SystemExit NoHostedZone))
          | Some hz =>
              if (length z =? 0)%nat
              then halt seen (Ended (SystemExit NoRecordsFound))
              else
                match rdtype_of (recordtype options) with
                | None =>
                    halt seen (Ended (SystemExit
                                 (UnsupportedType (recordtype options))))
                | Some (rdtypevar, rdclassvar) =>
                    match aggregate (domain options) rdtypevar rdclassvar z with
                    | None => halt seen TypeError
                    | Some adict =>
                        match build_changes iteritems (recordtype options)
                                adict with
                        | None => halt seen (Ended ValueError)
                        | Some dns_changes =>
                            if (length dns_changes =? 0)%nat
                            then halt seen
                                   (Ended (SystemExit
                                      (NoRecordsProcessed
                                         (recordtype options))))
                            else
                              let r := submit route53 hz
                                         (batches dns_changes) [] in
                              {| events := seen ++ (Submit <$> r.1);
                                 final := Ended r.2 |}
                        end
                    end
                end
          end
      end
  end.

(** The options of lines 59-161 behind a namespace whose server and
    domain are given. *)
Definition options_of (options : Namespace) (server dom : string)
    : Options :=
  {| AXFR2Route53.dns_server := server;
     AXFR2Route53.domain := dom;
     AXFR2Route53.recordtype := recordtype options;
     AXFR2Route53.comment := comment options;
     AXFR2Route53.hostedzone := hostedzone options |}.

End Cli.

Import AXFR2Route53 Route53 Spec Views Closing.

(** ** Python built-ins *)

Lemma int_str (n : Z) : Py.int (Py.str n) = Some n.
Proof.
  unfold Py.int, Py.str.
  rewrite NilZero.isi.
  - simpl. by rewrite DecimalZ.of_to.
  - destruct n; simpl; try discriminate.
    intros [= H]. by apply (Unsigned.to_uint_nonnil p).
  - destruct n; simpl; try discriminate.
    intros [= H]. by apply (Unsigned.to_uint_nonnil p).
Qed.

Lemma string_length_app (s t : string) :
  String.length (s +:+ t) = String.length s + String.length t.
Proof. induction s as [|a s IH]; simpl; [done | by rewrite IH]. Qed.

Lemma string_app_inv_tail (s1 s2 t : string) :
  s1 +:+ t = s2 +:+ t → s1 = s2.
Proof.
  revert s2. induction s1 as [|a s1 IH]; intros [|b s2] H.
  - done.
  - apply (f_equal String.length) in H.
    rewrite !string_length_app in H. simpl in H. lia.
  - apply (f_equal String.length) in H.
    rewrite !string_length_app in H. simpl in H. lia.
  - injection H as -> H. f_equal. by apply IH.
Qed.

#[global] Instance recordname_inj dn : Inj (=) (=) (recordname dn).
Proof.
  intros n1 n2 H. unfold recordname in H.
  by do 3 apply string_app_inv_tail in H.
Qed.

(** ** The aggregation loops *)

Section Aggregation.

Variable dn : string.

(** One node contributes exactly its records. *)
Lemma add_node_records tv cv adict item :
  add_node dn tv cv adict item = foldl (feed dn) adict (node_records tv cv item).
Proof.
  unfold add_node, node_records.
  destruct (Dns.get_rdataset item.2 cv tv) as [rdataset|]; [|done].
  rewrite foldl_fmap.
  by destruct (Dns.items rdataset).
Qed.

(** The nested loops are the loop body run along the record sequence. *)
Lemma aggregate_zone_records tv cv z :
  aggregate dn tv cv z = foldl (feed dn) ∅ (zone_records tv cv z).
Proof.
  unfold aggregate, zone_records.
  generalize (∅ : gmap string Entry).
  induction z as [|item z IH]; intros adict; [done|].
  simpl. rewrite foldl_app, IH. by rewrite add_node_records.
Qed.

(** What one step does to the entry under a key. *)
Lemma lookup_feed adict r k :
  feed dn adict r !! k =
    if decide (feeds dn k r) then
      match adict !! k with
      | Some e => Some {| records := records e ++ [r.2]; ttl := ttl e |}
      | None => Some {| records := [r.2]; ttl := Py.str r.1.2 |}
      end
    else adict !! k.
Proof.
  unfold feed, add_record, feeds.
  destruct (String.eqb_spec r.1.1 "@") as [Hap|Hap].
  { rewrite decide_False; [done | tauto]. }
  case_decide as Hk.
  - destruct Hk as [_ <-].
    destruct (adict !! recordname dn r.1.1); by rewrite lookup_insert_eq.
  - assert (recordname dn r.1.1 ≠ k) by tauto.
    destruct (adict !! recordname dn r.1.1); by rewrite lookup_insert_ne.
Qed.

(** The entry under a key after a whole sequence: the values of the
    records feeding the key are appended in order; the TTL is written
    when the entry is created and left alone afterwards. *)
Lemma lookup_foldl_feed rs adict k :
  foldl (feed dn) adict rs !! k =
    match adict !! k with
    | Some e =>
        Some {| records := records e ++ (snd <$> filter (feeds dn k) rs);
                ttl := ttl e |}
    | None =>
        match filter (feeds dn k) rs with
        | [] => None
        | r :: _ =>
            Some {| records := snd <$> filter (feeds dn k) rs;
                    ttl := Py.str r.1.2 |}
        end
    end.
Proof.
  revert adict. induction rs as [|r rs IH]; intros adict; simpl.
  { destruct (adict !! k) as [[]|]; simpl; [by rewrite app_nil_r | done]. }
  rewrite IH, lookup_feed, filter_cons.
  case_decide; [|done].
  destruct (adict !! k) as [e|]; simpl; [|done].
  by rewrite <- app_assoc.
Qed.

Lemma lookup_walk rs k :
  foldl (feed dn) ∅ rs !! k =
    match filter (feeds dn k) rs with
    | [] => None
    | r :: _ =>
        Some {| records := snd <$> filter (feeds dn k) rs;
                ttl := Py.str r.1.2 |}
    end.
Proof.
  by rewrite lookup_foldl_feed, lookup_empty.
Qed.

(** Under the key of a non-apex name are the records that name owns. *)
Lemma feeds_owned_by name rs :
  name ≠ "@" →
  filter (feeds dn (recordname dn name)) rs = owned_by name rs.
Proof.
  intros Hname. unfold owned_by. apply list_filter_iff.
  intros r. unfold feeds. split.
  - intros [_ H]. by apply (inj (recordname dn)) in H.
  - intros ->. done.
Qed.

(** A key is present exactly when a non-apex name renders to it. *)
Lemma elem_of_dom_walk rs k :
  k ∈ dom (foldl (feed dn) ∅ rs) ↔ k ∈ recordname dn <$> owners rs.
Proof.
  rewrite elem_of_dom, lookup_walk, list_elem_of_fmap.
  unfold owners. split.
  - destruct (filter (feeds dn k) rs) as [|r l] eqn:E; [by intros [? ?]|].
    intros _. assert (r ∈ filter (feeds dn k) rs) as Hr by (rewrite E; left).
    apply list_elem_of_filter in Hr as [[Hap <-] Hin].
    exists r.1.1. split; [done|].
    apply list_elem_of_filter. split; [done|].
    apply list_elem_of_fmap. by exists r.
  - intros (name & -> & Hin).
    apply list_elem_of_filter in Hin as [Hap Hin].
    apply list_elem_of_fmap in Hin as (r & -> & Hin).
    assert (r ∈ filter (feeds dn (recordname dn r.1.1)) rs) as Hr.
    { apply list_elem_of_filter. by split. }
    destruct (filter _ rs); [by apply elem_of_nil in Hr | eauto].
Qed.

End Aggregation.

(** ** Aggregation: TTL, grouping, apex *)

Lemma size_list_to_set_fmap_inj (f : string → string) `{!Inj (=) (=) f}
    (l : list string) :
  size (list_to_set (f <$> l) : gset string) = length (remove_dups l).
Proof.
  transitivity (size (list_to_set (f <$> remove_dups l) : gset string)).
  - f_equal. apply set_eq. intros x.
    rewrite !elem_of_list_to_set, !list_elem_of_fmap.
    by setoid_rewrite elem_of_remove_dups.
  - rewrite size_list_to_set, length_fmap; [done|].
    apply NoDup_fmap_2; [done | apply NoDup_remove_dups].
Qed.

(** The keys after the walk over a zone are the renderings of the
    non-apex owner names that have a record of the requested kind. *)
Lemma dom_aggregate dn tv cv z :
  dom (aggregate dn tv cv z)
    = list_to_set (recordname dn <$> owners (zone_records tv cv z)).
Proof.
  apply set_eq. intros k. rewrite elem_of_list_to_set.
  rewrite aggregate_zone_records.
  apply elem_of_dom_walk.
Qed.

(** C2: the walk over a zone leaves one entry per distinct non-apex owner
    name that has a record of the requested class and type; the entries
    are keyed by the fully-qualified names; and the entry of a name lists
    exactly the values of the records of that name, in the order the
    records were met. *)
Theorem C2_aggregator_groups_by_owner dn tv cv z :
  let rs := zone_records tv cv z in
  let adict := aggregate dn tv cv z in
  size adict = length (remove_dups (owners rs))
  ∧ dom adict = list_to_set (recordname dn <$> owners rs)
  ∧ ∀ name, name ∈ owners rs →
      ∃ e, adict !! recordname dn name = Some e
           ∧ records e = snd <$> owned_by name rs.
Proof.
  intros rs adict.
  assert (dom adict = list_to_set (recordname dn <$> owners rs)) as Hdom
    by apply dom_aggregate.
  split; [|split; [done|]].
  - rewrite <- size_dom, Hdom. apply size_list_to_set_fmap_inj, _.
  - intros name Hin. subst adict rs.
    apply list_elem_of_filter in Hin as [Hap Hin].
    apply list_elem_of_fmap in Hin as (r & -> & Hin).
    rewrite aggregate_zone_records, lookup_walk.
    rewrite feeds_owned_by by done.
    assert (r ∈ owned_by r.1.1 (zone_records tv cv z)) as Hr.
    { by apply list_elem_of_filter. }
    destruct (owned_by _ _) as [|r' l]; [by apply elem_of_nil in Hr|].
    eauto.
Qed.

Lemma add_record_apex dn rttl adict values :
  foldl (add_record dn "@" rttl) adict values = adict.
Proof. induction values as [|v values IH]; [done | by simpl]. Qed.

Lemma add_node_apex dn tv cv adict item :
  item.1 = "@" → add_node dn tv cv adict item = adict.
Proof.
  intros Hap. unfold add_node. rewrite Hap.
  destruct (Dns.get_rdataset item.2 cv tv) as [rdataset|]; [|done].
  destruct (Dns.items rdataset); [done | apply add_record_apex].
Qed.

(** C9: a node whose owner name is the apex marker ["@"] contributes
    nothing, however many values its record set holds: the loop body
    leaves [adict] as it was, the key the marker would render to is
    absent, and the result is the one of the zone without such nodes. *)
Theorem C9_apex_is_skipped dn tv cv z :
  (∀ adict rttl values, foldl (add_record dn "@" rttl) adict values = adict)
  ∧ aggregate dn tv cv z !! recordname dn "@" = None
  ∧ aggregate dn tv cv z
      = aggregate dn tv cv (filter (λ item, item.1 ≠ "@") z).
Proof.
  split; [intros; apply add_record_apex|]. split.
  - rewrite aggregate_zone_records, lookup_walk.
    destruct (filter _ _) as [|r l] eqn:E; [done|].
    assert (r ∈ filter (feeds dn (recordname dn "@")) (zone_records tv cv z))
      as Hr by (rewrite E; left).
    apply list_elem_of_filter in Hr as [[Hap Heq] _].
    by apply (inj (recordname dn)) in Heq.
  - unfold aggregate. generalize (∅ : gmap string Entry).
    induction z as [|item z IH]; intros adict; [done|].
    rewrite filter_cons. case_decide as Hap; simpl.
    + apply IH.
    + rewrite add_node_apex; [apply IH|].
      by destruct (decide (item.1 = "@")).
Qed.

(** ** Building the change list *)

Lemma filter_fmap_comm {A B} (f : A → B) (P : B → Prop)
    `{!∀ y, Decision (P y)} (l : list A) :
  filter P (f <$> l) = f <$> filter (λ x, P (f x)) l.
Proof.
  induction l as [|x l IH]; [done|].
  rewrite fmap_cons, !filter_cons, IH. by case_decide.
Qed.

Lemma filter_key_NoDup {V} (l : list (string * V)) k v :
  NoDup l.*1 → (k, v) ∈ l → filter (λ x, x.1 = k) l = [(k, v)].
Proof.
  induction l as [|[k' v'] l IH]; intros Hnd Hin.
  { by apply elem_of_nil in Hin. }
  rewrite fmap_cons in Hnd. apply NoDup_cons in Hnd as [Hk' Hnd].
  rewrite filter_cons. simpl. apply elem_of_cons in Hin as [Heq|Hin].
  - injection Heq as <- <-. rewrite decide_True by done. f_equal.
    destruct (filter (λ x, x.1 = k) l) as [|y l'] eqn:E; [done|].
    assert (y ∈ filter (λ x, x.1 = k) l) as Hy by (rewrite E; left).
    apply list_elem_of_filter in Hy as [Hy1 Hy2].
    exfalso. apply Hk'. apply list_elem_of_fmap. by exists y.
  - rewrite decide_False; [by apply IH|].
    intros ->. apply Hk'. apply list_elem_of_fmap. by exists (k, v).
Qed.

(** What the aggregation stores under a key: a key rendered from a
    non-apex name, and a TTL text that [str] produced. *)
Lemma aggregate_entry dn tv cv z k e :
  aggregate dn tv cv z !! k = Some e →
  ∃ name t, name ≠ "@" ∧ k = recordname dn name ∧ ttl e = Py.str t.
Proof.
  rewrite aggregate_zone_records, lookup_walk.
  destruct (filter _ _) as [|r l] eqn:E; [done|]. intros [= <-].
  assert (r ∈ filter (feeds dn k) (zone_records tv cv z)) as Hr
    by (rewrite E; left).
  apply list_elem_of_filter in Hr as [[Hap Hk] _].
  by exists r.1.1, r.1.2.
Qed.

Section Changes.

Variable iteritems : gmap string Entry → list (string * Entry).

(** Whatever the order, iterating a dictionary yields each of its items
    once. *)
Hypothesis iteritems_items : ∀ m, iteritems m ≡ₚ map_to_list m.

Lemma elem_of_iteritems m k e : (k, e) ∈ iteritems m ↔ m !! k = Some e.
Proof. by rewrite iteritems_items, elem_of_map_to_list. Qed.

Lemma NoDup_iteritems_keys m : NoDup (iteritems m).*1.
Proof. rewrite iteritems_items. apply NoDup_fst_map_to_list. Qed.

Lemma length_iteritems m : length (iteritems m) = size m.
Proof. rewrite iteritems_items. apply length_map_to_list. Qed.

(** On the aggregated dictionary the loop of lines 125-136 never raises,
    and appends for each item the change built from it. *)
Lemma build_changes_aggregate dn tv cv z rt :
  let adict := aggregate dn tv cv z in
  build_changes iteritems rt adict
    = Some ((λ item,
              {| Action := UPSERT;
                 RRSet := {| Name := item.1;
                             Type_ := rt;
                             TTL := default 0%Z (Py.int (ttl item.2));
                             ResourceRecords :=
                               Build_ResourceRecord <$> records item.2 |} |})
            <$> iteritems adict).
Proof.
  intros adict. unfold build_changes.
  apply mapM_Some_2, Forall2_fmap_r, Forall_Forall2_diag, Forall_forall.
  intros [k e] Hin. apply elem_of_iteritems in Hin.
  apply aggregate_entry in Hin as (name & t & _ & _ & Ht).
  unfold change_of. simpl. by rewrite Ht, int_str.
Qed.

(** C8: the loop of lines 125-136 turns the aggregated dictionary into a
    change list with as many elements as the dictionary has entries, and
    for every entry the list holds exactly one change named after the
    entry's key, which is [<name>.<domain>.] for a non-apex owner name;
    that change is an UPSERT of the requested type, its TTL is the stored
    text read by [int], and its values are the stored values in their
    order. *)
Theorem C8_one_upsert_per_entry dn tv cv z rt :
  let adict := aggregate dn tv cv z in
  ∃ dns_changes,
    build_changes iteritems rt adict = Some dns_changes
    ∧ length dns_changes = size adict
    ∧ ∀ key e, adict !! key = Some e →
        ∃ name n,
          name ≠ "@"
          ∧ key = ((name +:+ ".") +:+ dn) +:+ "."
          ∧ Py.int (ttl e) = Some n
          ∧ filter (λ c, Name (RRSet c) = key) dns_changes
              = [ {| Action := UPSERT;
                     RRSet := {| Name := key;
                                 Type_ := rt;
                                 TTL := n;
                                 ResourceRecords :=
                                   Build_ResourceRecord <$> records e |} |} ].
Proof.
  intros adict. eexists. split; [apply build_changes_aggregate|].
  split; [by rewrite length_fmap, length_iteritems|].
  intros key e Hin.
  destruct (aggregate_entry _ _ _ _ _ _ Hin) as (name & t & Hap & -> & Ht).
  exists name, t. split; [done|]. split; [done|].
  split; [by rewrite Ht, int_str|].
  rewrite filter_fmap_comm. simpl.
  rewrite (filter_key_NoDup _ _ e).
  - simpl. by rewrite Ht, int_str.
  - apply NoDup_iteritems_keys.
  - by apply elem_of_iteritems.
Qed.

End Changes.

(** ** Cutting the change list into batches *)

Section Chunks.

Context {A : Type}.
Variable B : nat.
Hypothesis B_pos : 0 < B.

Lemma ceil_div_0 : ceil_div 0 B = 0.
Proof. unfold ceil_div. apply Nat.div_small. lia. Qed.

Lemma ceil_div_step L : 0 < L → ceil_div L B = S (ceil_div (L - B) B).
Proof.
  intros HL. unfold ceil_div.
  destruct (decide (B ≤ L)) as [Hle|Hlt].
  - replace (L + B - 1) with ((L - B + B - 1) + 1 * B) by lia.
    rewrite Nat.div_add by lia. lia.
  - replace (L - B) with 0 by lia.
    replace (L + B - 1) with ((L - 1) + 1 * B) by lia.
    rewrite Nat.div_add by lia.
    rewrite !Nat.div_small by lia. lia.
Qed.

(** [xrange] yields [ceil((stop - start) / step)] values. *)
Lemma length_xrange_from fuel start stop :
  stop - start ≤ fuel →
  length (Py.xrange_from fuel start stop B) = ceil_div (stop - start) B.
Proof.
  revert start. induction fuel as [|fuel IH]; intros start Hfuel; simpl.
  { replace (stop - start) with 0 by lia. by rewrite ceil_div_0. }
  destruct (Nat.ltb_spec start stop) as [Hlt|Hge]; simpl.
  - rewrite IH by lia. rewrite (ceil_div_step (stop - start)) by lia.
    do 2 f_equal. lia.
  - replace (stop - start) with 0 by lia. by rewrite ceil_div_0.
Qed.

(** The slices taken at the values of [xrange] tile the list. *)
Lemma concat_slices (l : list A) fuel start :
  length l - start ≤ fuel →
  concat ((λ x, Py.slice l x (x + B))
            <$> Py.xrange_from fuel start (length l) B)
    = drop start l.
Proof.
  revert start. induction fuel as [|fuel IH]; intros start Hfuel; simpl.
  { rewrite drop_ge; [done | lia]. }
  destruct (Nat.ltb_spec start (length l)) as [Hlt|Hge]; simpl.
  - rewrite IH by lia. unfold Py.slice.
    replace (start + B - start) with B by lia.
    rewrite <- (take_drop B (drop start l)) at 2.
    by rewrite drop_drop.
  - rewrite drop_ge; [done | lia].
Qed.

Lemma length_slice (l : list A) x : length (Py.slice l x (x + B)) ≤ B.
Proof. unfold Py.slice. rewrite length_take. lia. Qed.

End Chunks.

Lemma batches_large (l : list Change) :
  98 < length l →
  batches l = (λ x, Py.slice l x (x + 98)) <$> Py.xrange 0 (length l) 98.
Proof.
  intros H. unfold batches.
  by destruct (Nat.ltb_spec 98 (length l)); [|lia].
Qed.

Lemma batches_small (l : list Change) :
  length l ≤ 98 → batches l = [l].
Proof.
  intros H. unfold batches.
  by destruct (Nat.ltb_spec 98 (length l)); [lia|].
Qed.

Lemma concat_batches (l : list Change) : concat (batches l) = l.
Proof.
  destruct (decide (98 < length l)) as [Hbig|Hsmall].
  - rewrite batches_large by done. unfold Py.xrange.
    rewrite concat_slices by lia. done.
  - rewrite batches_small by lia. simpl. apply app_nil_r.
Qed.

Lemma Forall_length_batches (l : list Change) :
  Forall (λ b, length b ≤ 98) (batches l).
Proof.
  destruct (decide (98 < length l)) as [Hbig|Hsmall].
  - rewrite batches_large by done. apply Forall_fmap, Forall_forall.
    intros x _. apply length_slice. lia.
  - rewrite batches_small by lia. apply Forall_singleton. lia.
Qed.

Lemma length_batches (l : list Change) :
  l ≠ [] → length (batches l) = ceil_div (length l) 98.
Proof.
  intros Hne. assert (0 < length l) by (destruct l; [done | simpl; lia]).
  destruct (decide (98 < length l)) as [Hbig|Hsmall].
  - rewrite batches_large by done. unfold Py.xrange.
    rewrite length_fmap, length_xrange_from by lia.
    f_equal. lia.
  - rewrite batches_small by lia. unfold ceil_div.
    replace (length l + 98 - 1) with ((length l - 1) + 1 * 98) by lia.
    rewrite Nat.div_add by lia. rewrite Nat.div_small by lia. done.
Qed.

(** ** Submitting the batches *)

(** The requests issued extend those already made by the first batches,
    one request per batch, in the order of the batches. *)
Lemma submit_calls route53 hz chunks made :
  ∃ n, n ≤ length chunks
       ∧ (submit route53 hz chunks made).1
           = made ++ (Build_Request hz <$> take n chunks)
       ∧ ((submit route53 hz chunks made).2 = Finished → n = length chunks).
Proof.
  revert made. induction chunks as [|chunk rest IH]; intros made; simpl.
  { exists 0. by rewrite app_nil_r. }
  destruct (route53 made _) eqn:Hok.
  - destruct (IH (made ++ [Build_Request hz chunk])) as (n & Hn & -> & Hfin).
    exists (S n). rewrite <- app_assoc. simpl.
    split; [lia|]. split; [done|]. intros H. by rewrite Hfin.
  - exists 1. simpl. split; [lia|]. by split.
Qed.

(** A request the destination rejects is the last one issued. *)
Lemma submit_stops route53 hz chunks made i req :
  length made ≤ i →
  (submit route53 hz chunks made).1 !! i = Some req →
  route53 (take i (submit route53 hz chunks made).1) req = false →
  length (submit route53 hz chunks made).1 = S i.
Proof.
  revert made. induction chunks as [|chunk rest IH]; intros made Hi; simpl.
  { intros Hreq. apply lookup_lt_Some in Hreq. lia. }
  destruct (route53 made _) eqn:Hok; simpl.
  - destruct (decide (i = length made)) as [->|Hne].
    + destruct (submit_calls route53 hz rest (made ++ [Build_Request hz chunk]))
        as (n & _ & -> & _).
      rewrite <- !app_assoc. simpl.
      rewrite take_app_length, list_lookup_middle by done.
      intros [= <-] Hrej. congruence.
    + apply IH. rewrite length_app. simpl. lia.
  - intros Hreq _. apply lookup_lt_Some in Hreq.
    rewrite length_app in *. simpl in *. lia.
Qed.

(** Every request but the last one was accepted, and the run ends with
    [ClientError] exactly when it issued a request that was rejected. *)
Lemma submit_result route53 hz chunks made :
  (submit route53 hz chunks made).2 = Finished
  ∨ (submit route53 hz chunks made).2 = ClientError
    ∧ ∃ req, last (submit route53 hz chunks made).1 = Some req
        ∧ route53 (take (length (submit route53 hz chunks made).1 - 1)
                        (submit route53 hz chunks made).1) req = false.
Proof.
  revert made. induction chunks as [|chunk rest IH]; intros made; simpl.
  { by left. }
  destruct (route53 made _) eqn:Hok; simpl; [apply IH|].
  right. split; [done|]. exists (Build_Request hz chunk).
  rewrite last_snoc, length_app. simpl.
  replace (length made + 1 - 1) with (length made) by lia.
  by rewrite take_app_length.
Qed.

(** ** The run as a whole *)

Lemma rdtype_of_supported rt :
  is_Some (rdtype_of rt) ↔ rt ∈ supported_types.
Proof.
  unfold rdtype_of, supported_types.
  repeat match goal with
         | |- context [String.eqb rt ?s] =>
             destruct (String.eqb_spec rt s) as [->|?];
             [split; [intros _; rewrite !elem_of_cons; tauto | by eauto]|]
         end.
  split; [by intros [? ?]|].
  rewrite !elem_of_cons, elem_of_nil. intros H. exfalso. tauto.
Qed.

Lemma rdtype_of_unsupported rt :
  rt ∉ supported_types → rdtype_of rt = None.
Proof.
  rewrite <- rdtype_of_supported, <- eq_None_not_Some. done.
Qed.

(** C5: the requests reach the destination in the order of the batches,
    one per batch and without gaps: the batches requested are an initial
    segment of the batch list.  A request the destination rejects is the
    last request of the run, so no later batch is ever submitted and none
    is submitted again; a run that finishes has submitted all of them. *)
Theorem C5_submission_in_order_abort_on_failure iteritems opts z route53 :
  let r := update_records iteritems opts z route53 in
  (∃ n, Changes <$> calls r = take n (batches (changes r)))
  ∧ (∀ i req, calls r !! i = Some req →
       route53 (take i (calls r)) req = false →
       length (calls r) = S i)
  ∧ (result r = Finished → Changes <$> calls r = batches (changes r))
  ∧ (result r = ClientError →
       ∃ req, last (calls r) = Some req
         ∧ route53 (take (length (calls r) - 1) (calls r)) req = false).
Proof.
  assert (∀ hz (l : list (list Change)),
            Changes <$> (Build_Request hz <$> l) = l) as Hch.
  { intros hz l. rewrite <- list_fmap_compose. apply list_fmap_id. }
  unfold update_records.
  destruct (hostedzone opts) as [hz|]; simpl;
    [|by split; [exists 0|]].
  destruct (length z =? 0); simpl; [by split; [exists 0|]|].
  destruct (rdtype_of (recordtype opts)) as [[tv cv]|]; simpl;
    [|by split; [exists 0|]].
  destruct (build_changes _ _ _) as [dns_changes|]; simpl;
    [|by split; [exists 0|]].
  destruct (length dns_changes =? 0); simpl; [by split; [exists 0|]|].
  destruct (submit_calls route53 hz (batches dns_changes) [])
    as (n & Hn & Hcalls & Hfin).
  simpl in Hcalls.
  split; [|split; [|split]].
  - exists n. by rewrite Hcalls, Hch.
  - intros i req. apply submit_stops. simpl. lia.
  - intros Hres. rewrite Hcalls, Hch, (Hfin Hres). apply firstn_all.
  - intros Hres.
    destruct (submit_result route53 hz (batches dns_changes) [])
      as [Hok|[_ H]]; [congruence | done].
Qed.

(** C6, as stated, fails: with the unsupported type ["SOA"] and a
    transfer that returned no node, the run stops on the empty transfer,
    not on the type. *)
Lemma C6_empty_zone_masks_unsupported_type :
  ("SOA" ∉ supported_types)
  ∧ result (update_records map_to_list (Sample.options "SOA") []
              Sample.accepting)
      = SystemExit NoRecordsFound
  ∧ result (update_records map_to_list (Sample.options "SOA") []
              Sample.accepting)
      ≠ SystemExit (UnsupportedType "SOA").
Proof.
  split; [|split; [reflexivity | discriminate]].
  rewrite <- rdtype_of_supported. by intros [? ?].
Qed.

(** C6 (amended): for every requested record type outside the supported
    set the run ends in [SystemExit] without a single request to the
    destination; the exit is the one for an unsupported type whenever the
    hosted zone is set and the transfer returned at least one node (the
    checks for a missing hosted zone and for an empty transfer come
    first). *)
Theorem C6_unsupported_type_fails_before_submission
    iteritems opts z route53 :
  recordtype opts ∉ supported_types →
  let r := update_records iteritems opts z route53 in
  calls r = []
  ∧ (∃ why, result r = SystemExit why)
  ∧ (∀ hz, hostedzone opts = Some hz → z ≠ [] →
       result r = SystemExit (UnsupportedType (recordtype opts))).
Proof.
  intros Hrt%rdtype_of_unsupported. unfold update_records. rewrite Hrt.
  destruct (hostedzone opts) as [hz|]; simpl.
  - destruct z as [|item z]; simpl.
    + split; [done|]. split; [by eauto|]. by intros hz' _ ?.
    + split; [done|]. split; [by eauto|]. done.
  - split; [done|]. split; [by eauto|]. by intros hz' ?.
Qed.

Lemma C6_unsupported_type_fails_before_submission_witness :
  ("SOA" ∉ supported_types)
  ∧ let r := update_records map_to_list (Sample.options "SOA")
               Sample.zone Sample.accepting in
    calls r = []
    ∧ (∃ why, result r = SystemExit why)
    ∧ (∀ hz, hostedzone (Sample.options "SOA") = Some hz →
         Sample.zone ≠ [] →
         result r = SystemExit (UnsupportedType "SOA")).
Proof.
  assert ("SOA" ∉ supported_types) as H.
  { rewrite <- rdtype_of_supported. by intros [? ?]. }
  split; [exact H|].
  exact (C6_unsupported_type_fails_before_submission
           map_to_list (Sample.options "SOA") Sample.zone
           Sample.accepting H).
Defined.

(** C4, as stated, fails.  Handed the empty list, the batching code takes
    the single-batch branch and issues one request with no change in it;
    and a run whose change list is empty does end in an error, before
    that code is reached. *)
Lemma C4_empty_list_not_a_noop :
  batches [] = [[]]
  ∧ (submit Sample.accepting "Z1234567891011" (batches []) []).1
      = [ {| HostedZoneId := "Z1234567891011"; Changes := [] |} ]
  ∧ update_records map_to_list (Sample.options "A")
      Sample.zone_without_addresses Sample.accepting
      = stop (SystemExit (NoRecordsProcessed "A")).
Proof. by vm_compute. Qed.

(** C4 (amended): when the change list of a run is empty, no request is
    made to the destination and the run does not finish normally; with
    the hosted zone set, a zone that has nodes and a supported type, the
    run stops with the exit for "no records of this type processed",
    before the batching code. *)
Theorem C4_empty_change_list_aborts iteritems opts z route53 :
  changes (update_records iteritems opts z route53) = [] →
  let r := update_records iteritems opts z route53 in
  calls r = []
  ∧ result r ≠ Finished
  ∧ (∀ hz tv cv,
       hostedzone opts = Some hz → z ≠ [] →
       rdtype_of (recordtype opts) = Some (tv, cv) →
       build_changes iteritems (recordtype opts)
         (aggregate (domain opts) tv cv z) = Some [] →
       r = stop (SystemExit (NoRecordsProcessed (recordtype opts)))).
Proof.
  unfold update_records.
  destruct (hostedzone opts) as [hz|]; simpl.
  2: { intros _. split; [done|]. split; [done|]. by intros ??? ?. }
  destruct z as [|item z]; simpl.
  { intros _. split; [done|]. split; [done|]. by intros ??? _ ?. }
  destruct (rdtype_of (recordtype opts)) as [[tv cv]|]; simpl.
  2: { intros _. split; [done|]. split; [done|]. by intros ??? _ _ ?. }
  destruct (build_changes _ _ _) as [dns_changes|] eqn:Hbuild; simpl.
  2: { intros _. split; [done|]. split; [done|].
       intros ??? _ _ [= <- <-] ?. congruence. }
  destruct dns_changes as [|c dns_changes]; simpl; [|done].
  intros _. split; [done|]. split; [done|]. by intros ??? _ _ _ _.
Qed.

Lemma C4_empty_change_list_aborts_witness :
  changes (update_records map_to_list (Sample.options "A")
             Sample.zone_without_addresses Sample.accepting) = []
  ∧ let r := update_records map_to_list (Sample.options "A")
               Sample.zone_without_addresses Sample.accepting in
    calls r = []
    ∧ result r ≠ Finished
    ∧ (∀ hz tv cv,
         hostedzone (Sample.options "A") = Some hz →
         Sample.zone_without_addresses ≠ [] →
         rdtype_of (recordtype (Sample.options "A")) = Some (tv, cv) →
         build_changes map_to_list (recordtype (Sample.options "A"))
           (aggregate (domain (Sample.options "A")) tv cv
              Sample.zone_without_addresses) = Some [] →
         r = stop (SystemExit
                     (NoRecordsProcessed (recordtype (Sample.options "A"))))).
Proof.
  assert (changes (update_records map_to_list (Sample.options "A")
                     Sample.zone_without_addresses Sample.accepting) = [])
    as H by (vm_compute; reflexivity).
  split; [exact H|].
  exact (C4_empty_change_list_aborts map_to_list (Sample.options "A")
           Sample.zone_without_addresses Sample.accepting H).
Defined.

Section Run.

Variable iteritems : gmap string Entry → list (string * Entry).
Hypothesis iteritems_items : ∀ m, iteritems m ≡ₚ map_to_list m.

(** A zone without a record of the requested kind under a non-apex name
    aggregates to the empty dictionary. *)
Lemma aggregate_nothing dn tv cv z :
  owners (zone_records tv cv z) = [] → aggregate dn tv cv z = ∅.
Proof.
  intros Hnone. apply (dom_empty_inv_L (D := gset string)).
  by rewrite dom_aggregate, Hnone.
Qed.

(** C7, as stated, fails: without [-z] a transfer that returned no node
    ends the run with the exit for a missing hosted zone, not with the one
    for an empty transfer. *)
Lemma C7_missing_hosted_zone_masks_empty_zone :
  length ([] : Dns.Zone) = 0
  ∧ result (update_records map_to_list (Sample.options_without_zone "A") []
              Sample.accepting)
      = SystemExit NoHostedZone
  ∧ result (update_records map_to_list (Sample.options_without_zone "A") []
              Sample.accepting)
      ≠ SystemExit NoRecordsFound.
Proof. split; [reflexivity|]. split; [reflexivity | discriminate]. Qed.

(** C7 (amended): a transfer that returned no node ends the run in
    [SystemExit] whatever the requested type (supported or not) and the
    destination: nothing is aggregated, no change is built and no request
    is made.  The exit is the one for "no records found" whenever the
    hosted zone is set, and the one for a missing hosted zone otherwise
    (that check comes first).  The exit for "no records found" differs
    from the one for "no records of this type processed", which ends the
    run when the zone has nodes and none of them carries a record of the
    requested type under a non-apex name. *)
Theorem C7_empty_zone_fails_before_aggregation opts z route53 :
  length z = 0 →
  let r := update_records iteritems opts z route53 in
  calls r = [] ∧ changes r = []
  ∧ (∃ why, result r = SystemExit why)
  ∧ (∀ hz, hostedzone opts = Some hz → r = stop (SystemExit NoRecordsFound))
  ∧ (hostedzone opts = None → r = stop (SystemExit NoHostedZone))
  ∧ (∀ t, SystemExit NoRecordsFound ≠ SystemExit (NoRecordsProcessed t))
  ∧ (∀ hz z' tv cv,
       hostedzone opts = Some hz →
       z' ≠ [] →
       rdtype_of (recordtype opts) = Some (tv, cv) →
       owners (zone_records tv cv z') = [] →
       update_records iteritems opts z' route53
         = stop (SystemExit (NoRecordsProcessed (recordtype opts)))).
Proof.
  intros Hz.
  assert (update_records iteritems opts z route53
            = match hostedzone opts with
              | Some _ => stop (SystemExit NoRecordsFound)
              | None => stop (SystemExit NoHostedZone)
              end) as Hrun.
  { unfold update_records. rewrite Hz. by destruct (hostedzone opts). }
  cbv zeta. rewrite Hrun.
  split; [by destruct (hostedzone opts)|].
  split; [by destruct (hostedzone opts)|].
  split; [destruct (hostedzone opts); simpl; by eauto|].
  split; [by intros hz ->|]. split; [by intros ->|]. split; [done|].
  intros hz z' tv cv Hhz Hz' Hrt Hnone.
  unfold update_records. rewrite Hhz, Hrt.
  destruct z' as [|item z']; [done|]. simpl length. simpl Nat.eqb. cbv iota.
  rewrite aggregate_nothing by done.
  unfold build_changes.
  assert (iteritems ∅ = []) as ->.
  { apply Permutation_nil_r. by rewrite iteritems_items, map_to_list_empty. }
  done.
Qed.

End Run.

Lemma C7_empty_zone_fails_before_aggregation_witness :
  (∀ m : gmap string Entry, map_to_list m ≡ₚ map_to_list m)
  ∧ length ([] : Dns.Zone) = 0
  ∧ calls (update_records map_to_list (Sample.options "A") []
             Sample.accepting) = []
  ∧ changes (update_records map_to_list (Sample.options "A") []
               Sample.accepting) = [].
Proof.
  split; [intros m; reflexivity|]. split; [reflexivity|].
  destruct (C7_empty_zone_fails_before_aggregation map_to_list
              (λ m, reflexivity _) (Sample.options "A") []
              Sample.accepting eq_refl) as (Hcalls & Hchanges & _).
  split; [exact Hcalls | exact Hchanges].
Defined.

Lemma C8_one_upsert_per_entry_witness :
  (∀ m : gmap string Entry, map_to_list m ≡ₚ map_to_list m)
  ∧ ∃ dns_changes,
      build_changes map_to_list "A"
        (aggregate "example.com" Dns.A Dns.IN Sample.zone) = Some dns_changes
      ∧ length dns_changes
          = size (aggregate "example.com" Dns.A Dns.IN Sample.zone).
Proof.
  split; [intros m; reflexivity|].
  destruct (C8_one_upsert_per_entry map_to_list (λ m, reflexivity _)
              "example.com" Dns.A Dns.IN Sample.zone "A")
    as (dns_changes & Hbuild & Hlen & _).
  exists dns_changes. split; [exact Hbuild | exact Hlen].
Defined.

(** ** The scenarios of the specification, run on the model *)

(** Two hosts under [example.com], type A: one request carrying two
    changes. *)
Example scenario_two_hosts :
  update_records map_to_list (Sample.options "A") Sample.zone
    Sample.accepting
  = let host1 :=
      {| Action := UPSERT;
         RRSet := {| Name := "host1.example.com."; Type_ := "A"; TTL := 300;
                     ResourceRecords := [ {| Value := "10.0.0.1" |};
                                          {| Value := "10.0.0.2" |} ] |} |} in
    let host2 :=
      {| Action := UPSERT;
         RRSet := {| Name := "host2.example.com."; Type_ := "A"; TTL := 60;
                     ResourceRecords := [ {| Value := "10.0.0.3" |} ] |} |} in
    {| calls := [ {| HostedZoneId := "Z1234567891011";
                     Changes := [host1; host2] |} ];
       changes := [host1; host2];
       result := Finished |}.
Proof. by vm_compute. Qed.

(** 250 changes are cut into batches of 98, 98 and 54; when the second
    request is rejected, the third batch is never requested. *)
Example scenario_250_changes :
  let c := {| Action := UPSERT;
              RRSet := {| Name := "host.example.com."; Type_ := "A";
                          TTL := 300; ResourceRecords := [] |} |} in
  let chunks := batches (replicate 250 c) in
  length <$> chunks = [98; 98; 54]
  ∧ (length ∘ Changes
       <$> (submit (λ made _, length made <? 1) "Z1234567891011" chunks []).1)
      = [98; 98]
  ∧ (submit (λ made _, length made <? 1) "Z1234567891011" chunks []).2
      = ClientError.
Proof. by vm_compute. Qed.

(** ** Zones with distinct owner names

    The keys of [z.nodes] are distinct, so in a transferred zone no two
    items carry the same owner name. *)

Lemma node_records_owner tv cv item r :
  r ∈ node_records tv cv item → r.1.1 = item.1.
Proof.
  unfold node_records.
  destruct (Dns.get_rdataset item.2 cv tv) as [rdataset|].
  - intros (v & -> & _)%list_elem_of_fmap. done.
  - by intros ?%elem_of_nil.
Qed.

Lemma zone_records_owner tv cv (z : Dns.Zone) r :
  r ∈ zone_records tv cv z → r.1.1 ∈ z.*1.
Proof.
  unfold zone_records. intros (item & Hr & Hitem)%list_elem_of_bind.
  apply node_records_owner in Hr as ->.
  apply list_elem_of_fmap. by exists item.
Qed.

Lemma owned_by_node_records tv cv item :
  owned_by item.1 (node_records tv cv item) = node_records tv cv item.
Proof.
  unfold owned_by.
  induction (node_records tv cv item) as [|r l IH] eqn:E; [done|].
  assert (∀ r', r' ∈ r :: l → r'.1.1 = item.1) as Hall.
  { intros r' Hr'. apply (node_records_owner tv cv). by rewrite E. }
  clear E. rewrite filter_cons.
  rewrite decide_True by (apply Hall; left). f_equal.
  clear IH. induction l as [|r' l IH]; [done|].
  rewrite filter_cons, decide_True by (apply Hall; right; left).
  f_equal. apply IH. intros r'' Hr''. apply Hall.
  apply elem_of_cons in Hr'' as [->|Hr'']; [left | right; by right].
Qed.

Lemma owned_by_absent name (rs : list Record_) :
  (∀ r, r ∈ rs → r.1.1 ≠ name) → owned_by name rs = [].
Proof.
  intros Hall. unfold owned_by.
  induction rs as [|r rs IH]; [done|].
  rewrite filter_cons, decide_False by (apply Hall; left).
  apply IH. intros r' Hr'. apply Hall. by right.
Qed.

(** In such a zone the records of a name are those of its one node. *)
Lemma zone_records_owned_by tv cv (z : Dns.Zone) name node :
  NoDup z.*1 → (name, node) ∈ z →
  owned_by name (zone_records tv cv z) = node_records tv cv (name, node).
Proof.
  unfold zone_records.
  induction z as [|item z IH]; intros Hnd Hin.
  { by apply elem_of_nil in Hin. }
  rewrite fmap_cons in Hnd. apply NoDup_cons in Hnd as [Hfresh Hnd].
  rewrite bind_cons. unfold owned_by. rewrite filter_app.
  fold (owned_by name (node_records tv cv item)).
  fold (owned_by name (z ≫= node_records tv cv)).
  apply elem_of_cons in Hin as [<-|Hin].
  - pose proof (owned_by_node_records tv cv (name, node)) as Hown.
    simpl in Hown. rewrite Hown.
    rewrite (owned_by_absent name (z ≫= _)); [apply app_nil_r|].
    intros r Hr%zone_records_owner Heq. by rewrite Heq in Hr.
  - rewrite (owned_by_absent name (node_records _ _ _)).
    + simpl. by apply IH.
    + intros r Hr%node_records_owner Heq. apply Hfresh.
      apply list_elem_of_fmap. exists (name, node). split; [|done].
      simpl. congruence.
Qed.

(** The entry of a non-apex name, read off the one node of that name. *)
Lemma lookup_aggregate_node dn tv cv (z : Dns.Zone) name node :
  NoDup z.*1 → (name, node) ∈ z → name ≠ "@" →
  aggregate dn tv cv z !! recordname dn name
    = match Dns.get_rdataset node cv tv with
      | Some rdataset =>
          match Dns.items rdataset with
          | [] => None
          | _ => Some {| records := Dns.items rdataset;
                         ttl := Py.str (Dns.ttl rdataset) |}
          end
      | None => None
      end.
Proof.
  intros Hnd Hin Hname.
  rewrite aggregate_zone_records, lookup_walk.
  rewrite feeds_owned_by by done.
  rewrite (zone_records_owned_by tv cv z name node) by done.
  unfold node_records. simpl.
  destruct (Dns.get_rdataset node cv tv) as [rdataset|]; [|done].
  destruct (Dns.items rdataset) as [|v vs]; [done|].
  simpl. do 3 f_equal.
  rewrite <- list_fmap_compose. apply list_fmap_id.
Qed.

(** X1: in a zone with distinct owner names, the entry stored for a
    non-apex name is read off the one node of that name: absent when the
    node has no record set of the requested class and type (or an empty
    one), otherwise the values of that record set in their order together
    with the text of its TTL. *)
Theorem aggregate_entry_of_node dn tv cv (z : Dns.Zone) name node :
  NoDup z.*1 → (name, node) ∈ z → name ≠ "@" →
  aggregate dn tv cv z !! recordname dn name
    = match Dns.get_rdataset node cv tv with
      | Some rdataset =>
          match Dns.items rdataset with
          | [] => None
          | _ => Some {| records := Dns.items rdataset;
                         ttl := Py.str (Dns.ttl rdataset) |}
          end
      | None => None
      end.
Proof.
  intros Hnd Hin Hname.
  rewrite aggregate_zone_records, lookup_walk.
  rewrite feeds_owned_by by done.
  rewrite (zone_records_owned_by tv cv z name node) by done.
  unfold node_records. simpl.
  destruct (Dns.get_rdataset node cv tv) as [rdataset|]; [|done].
  destruct (Dns.items rdataset) as [|v vs]; [done|].
  simpl. do 3 f_equal.
  rewrite <- list_fmap_compose. apply list_fmap_id.
Qed.

Lemma aggregate_entry_of_node_witness :
  NoDup Sample.zone.*1
  ∧ ("host1", [Sample.a_records 300 ["10.0.0.1"; "10.0.0.2"]]) ∈ Sample.zone
  ∧ "host1" ≠ "@"
  ∧ aggregate "example.com" Dns.A Dns.IN Sample.zone
      !! recordname "example.com" "host1"
    = Some {| records := ["10.0.0.1"; "10.0.0.2"]; ttl := Py.str 300 |}.
Proof.
  assert (NoDup Sample.zone.*1) as Hnd.
  { apply (bool_decide_unpack (NoDup Sample.zone.*1)). by vm_compute. }
  assert (("host1", [Sample.a_records 300 ["10.0.0.1"; "10.0.0.2"]])
            ∈ Sample.zone) as Hin by (right; left).
  assert ("host1" ≠ "@") as Hne by discriminate.
  split; [exact Hnd|]. split; [exact Hin|]. split; [exact Hne|].
  exact (aggregate_entry_of_node "example.com" Dns.A Dns.IN Sample.zone
           "host1" _ Hnd Hin Hne).
Defined.

Lemma elem_of_zone_records tv cv (z : Dns.Zone) r :
  r ∈ zone_records tv cv z ↔
  ∃ node rdataset,
    (r.1.1, node) ∈ z
    ∧ Dns.get_rdataset node cv tv = Some rdataset
    ∧ r.1.2 = Dns.ttl rdataset
    ∧ r.2 ∈ Dns.items rdataset.
Proof.
  unfold zone_records. rewrite list_elem_of_bind. split.
  - intros ([name node] & Hr & Hitem). unfold node_records in Hr.
    simpl in Hr.
    destruct (Dns.get_rdataset node cv tv) as [rdataset|] eqn:Hget;
      [|by apply elem_of_nil in Hr].
    apply list_elem_of_fmap in Hr as (v & -> & Hv). simpl.
    by exists node, rdataset.
  - intros (node & rdataset & Hitem & Hget & Httl & Hv).
    exists (r.1.1, node). split; [|done].
    unfold node_records. simpl. rewrite Hget.
    apply list_elem_of_fmap. exists r.2. split; [|done].
    rewrite <- Httl. by destruct r as [[? ?] ?].
Qed.

Lemma lookup_aggregate_iff dn tv cv (z : Dns.Zone) k e :
  NoDup z.*1 →
  aggregate dn tv cv z !! k = Some e ↔
  ∃ name node, (name, node) ∈ z ∧ name ≠ "@" ∧ k = recordname dn name
               ∧ entry_of_node tv cv node = Some e.
Proof.
  intros Hnd. split.
  - intros Hk.
    assert (k ∈ dom (aggregate dn tv cv z)) as Hdom
      by (apply elem_of_dom; eauto).
    rewrite dom_aggregate, elem_of_list_to_set in Hdom.
    apply list_elem_of_fmap in Hdom as (name & -> & Hname).
    apply list_elem_of_filter in Hname as [Hap Hname].
    apply list_elem_of_fmap in Hname as (r & -> & Hr).
    apply elem_of_zone_records in Hr as (node & _ & Hitem & _).
    exists r.1.1, node. split; [done|]. split; [done|]. split; [done|].
    by rewrite (lookup_aggregate_node dn tv cv z r.1.1 node) in Hk.
  - intros (name & node & Hitem & Hap & -> & He).
    by rewrite (lookup_aggregate_node dn tv cv z name node).
Qed.

(** X2: the order in which the zone's dictionary yields its nodes does
    not matter: two listings of the same nodes (with distinct owner
    names) aggregate to the same dictionary. *)
Theorem aggregate_order_irrelevant dn tv cv (z1 z2 : Dns.Zone) :
  NoDup z1.*1 → z1 ≡ₚ z2 →
  aggregate dn tv cv z1 = aggregate dn tv cv z2.
Proof.
  intros Hnd1 Hperm.
  assert (NoDup z2.*1) as Hnd2 by by rewrite <- Hperm.
  apply map_eq. intros k. apply option_eq. intros e.
  rewrite !lookup_aggregate_iff by done.
  by setoid_rewrite Hperm.
Qed.

Lemma aggregate_order_irrelevant_witness :
  NoDup Sample.zone.*1 ∧ Sample.zone ≡ₚ reverse Sample.zone
  ∧ aggregate "example.com" Dns.A Dns.IN Sample.zone
    = aggregate "example.com" Dns.A Dns.IN (reverse Sample.zone).
Proof.
  assert (NoDup Sample.zone.*1) as Hnd.
  { apply (bool_decide_unpack (NoDup Sample.zone.*1)). by vm_compute. }
  assert (Sample.zone ≡ₚ reverse Sample.zone) as Hperm
    by (symmetry; apply reverse_Permutation).
  split; [exact Hnd|]. split; [exact Hperm|].
  exact (aggregate_order_irrelevant "example.com" Dns.A Dns.IN
           Sample.zone (reverse Sample.zone) Hnd Hperm).
Defined.

(** X3: in a zone with distinct owner names the stored TTL is the TTL of
    every record of the name, the last as well as the first, and [int]
    gives it back: each selected record under a non-apex name finds its
    own TTL in the entry of its name. *)
Theorem stored_ttl_is_every_records_ttl dn tv cv (z : Dns.Zone) r :
  NoDup z.*1 → r ∈ zone_records tv cv z → r.1.1 ≠ "@" →
  ∃ e, aggregate dn tv cv z !! recordname dn r.1.1 = Some e
       ∧ ttl e = Py.str r.1.2
       ∧ Py.int (ttl e) = Some r.1.2
       ∧ r.2 ∈ records e.
Proof.
  intros Hnd Hr Hap.
  apply elem_of_zone_records in Hr as (node & rdataset & Hitem & Hget & -> & Hv).
  rewrite (lookup_aggregate_node dn tv cv z r.1.1 node) by done.
  rewrite Hget.
  destruct (Dns.items rdataset) as [|v vs] eqn:E;
    [by apply elem_of_nil in Hv|].
  eexists. split; [done|]. simpl. split; [done|].
  split; [apply int_str | done].
Qed.

Lemma stored_ttl_is_every_records_ttl_witness :
  NoDup Sample.zone.*1
  ∧ ("host1", 300%Z, "10.0.0.2") ∈ zone_records Dns.A Dns.IN Sample.zone
  ∧ "host1" ≠ "@"
  ∧ ∃ e, aggregate "example.com" Dns.A Dns.IN Sample.zone
           !! recordname "example.com" "host1" = Some e
         ∧ ttl e = Py.str 300
         ∧ Py.int (ttl e) = Some 300%Z
         ∧ "10.0.0.2" ∈ records e.
Proof.
  assert (NoDup Sample.zone.*1) as Hnd.
  { apply (bool_decide_unpack (NoDup Sample.zone.*1)). by vm_compute. }
  assert (("host1", 300%Z, "10.0.0.2")
            ∈ zone_records Dns.A Dns.IN Sample.zone) as Hr.
  { vm_compute. right; right; left. }
  assert ("host1" ≠ "@") as Hne by discriminate.
  split; [exact Hnd|]. split; [exact Hr|]. split; [exact Hne|].
  exact (stored_ttl_is_every_records_ttl "example.com" Dns.A Dns.IN
           Sample.zone ("host1", 300%Z, "10.0.0.2") Hnd Hr Hne).
Defined.

Lemma get_rdataset_Some node cv tv rdataset :
  Dns.get_rdataset node cv tv = Some rdataset →
  rdataset ∈ node ∧ Dns.rdclass rdataset = cv ∧ Dns.rdtype rdataset = tv.
Proof.
  induction node as [|rds rest IH]; simpl; [done|].
  destruct (N.eqb_spec (Dns.rdclass rds) cv) as [Hc|Hc]; simpl.
  - destruct (N.eqb_spec (Dns.rdtype rds) tv) as [Ht|Ht].
    + intros [= <-]. split; [left | done].
    + intros H. destruct (IH H) as (? & ? & ?). split; [by right | done].
  - intros H. destruct (IH H) as (? & ? & ?). split; [by right | done].
Qed.

(** X4: every value the aggregation stores comes from a record set of the
    requested class and type, held by a node of the zone whose non-apex
    owner name renders to the key; values of other types or classes, or
    of the apex, never get in. *)
Theorem aggregated_values_provenance dn tv cv (z : Dns.Zone) k e v :
  aggregate dn tv cv z !! k = Some e → v ∈ records e →
  ∃ name node rdataset,
    (name, node) ∈ z ∧ name ≠ "@" ∧ k = recordname dn name
    ∧ rdataset ∈ node
    ∧ Dns.rdclass rdataset = cv ∧ Dns.rdtype rdataset = tv
    ∧ v ∈ Dns.items rdataset.
Proof.
  rewrite aggregate_zone_records, lookup_walk.
  destruct (filter _ _) as [|r0 l] eqn:E; [done|]. intros [= <-].
  cbn [records]. change (r0.2 :: _) with (snd <$> r0 :: l).
  rewrite <- E. intros (r & -> & Hr)%list_elem_of_fmap.
  apply list_elem_of_filter in Hr as [[Hap Hk] Hr].
  apply elem_of_zone_records in Hr as (node & rdataset & Hitem & Hget & _ & Hv).
  apply get_rdataset_Some in Hget as (Hin & Hc & Ht).
  by exists r.1.1, node, rdataset.
Qed.

Lemma aggregated_values_provenance_witness :
  ∃ name node rdataset,
    (name, node) ∈ Sample.zone ∧ name ≠ "@"
    ∧ "host2.example.com." = recordname "example.com" name
    ∧ rdataset ∈ node
    ∧ Dns.rdclass rdataset = Dns.IN ∧ Dns.rdtype rdataset = Dns.A
    ∧ "10.0.0.3" ∈ Dns.items rdataset.
Proof.
  apply (aggregated_values_provenance "example.com" Dns.A Dns.IN
           Sample.zone "host2.example.com."
           {| records := ["10.0.0.3"]; ttl := "60" |} "10.0.0.3").
  - by vm_compute.
  - left.
Defined.

(** ** Conservation of values *)

Lemma value_count_insert (m : gmap string Entry) k e :
  value_count (map_to_list (<[k := e]> m)) + value_count (map_to_list m)
    = length (records e) + value_count (map_to_list (delete k m))
      + value_count (map_to_list m).
Proof.
  unfold value_count.
  rewrite <- insert_delete_eq.
  rewrite (map_to_list_insert (delete k m)) by apply lookup_delete_eq.
  done.
Qed.

Lemma value_count_feed dn (m : gmap string Entry) (r : Record_) :
  value_count (map_to_list (feed dn m r))
    = value_count (map_to_list m) + (if decide (r.1.1 = "@") then 0 else 1).
Proof.
  unfold feed, add_record.
  destruct (String.eqb_spec r.1.1 "@") as [Hap|Hap].
  { rewrite decide_True by done. lia. }
  rewrite decide_False by done.
  destruct (m !! recordname dn r.1.1) as [e|] eqn:Hk.
  - pose proof (value_count_insert m (recordname dn r.1.1)
                  {| records := records e ++ [r.2]; ttl := ttl e |}) as Hins.
    assert (value_count (map_to_list m)
              = length (records e)
                + value_count (map_to_list (delete (recordname dn r.1.1) m)))
      as Hm.
    { unfold value_count. by rewrite <- (map_to_list_delete m _ e Hk). }
    simpl in Hins. rewrite length_app in Hins. simpl in Hins. lia.
  - unfold value_count. by rewrite map_to_list_insert, Nat.add_comm.
Qed.

Lemma value_count_foldl_feed dn rs (m : gmap string Entry) :
  value_count (map_to_list (foldl (feed dn) m rs))
    = value_count (map_to_list m)
      + length (filter (λ r : Record_, r.1.1 ≠ "@") rs).
Proof.
  revert m. induction rs as [|r rs IH]; intros m; simpl; [lia|].
  rewrite IH, value_count_feed, filter_cons.
  destruct (decide (r.1.1 = "@")) as [Hap|Hap].
  - rewrite decide_False by tauto. lia.
  - rewrite decide_True by done. simpl. lia.
Qed.

Lemma item_pairs_cons item items :
  item_pairs (item :: items)
    = ((λ v, (item.1, v)) <$> records item.2) ++ item_pairs items.
Proof. unfold item_pairs. by rewrite bind_cons. Qed.

#[local] Instance item_pairs_Permutation :
  Proper ((≡ₚ) ==> (≡ₚ)) item_pairs.
Proof. intros l1 l2 H. unfold item_pairs. by rewrite H. Qed.

Lemma item_pairs_feed dn (m : gmap string Entry) (r : Record_) :
  item_pairs (map_to_list (feed dn m r))
    ≡ₚ item_pairs (map_to_list m)
       ++ (if decide (r.1.1 = "@") then []
           else [(recordname dn r.1.1, r.2)]).
Proof.
  unfold feed, add_record.
  destruct (String.eqb_spec r.1.1 "@") as [Hap|Hap].
  { rewrite decide_True by done. by rewrite app_nil_r. }
  rewrite decide_False by done.
  destruct (m !! recordname dn r.1.1) as [e|] eqn:Hk.
  - rewrite <- insert_delete_eq.
    rewrite (map_to_list_insert (delete _ m)) by apply lookup_delete_eq.
    rewrite <- (map_to_list_delete m _ e Hk).
    rewrite !item_pairs_cons. simpl. rewrite fmap_app. simpl.
    rewrite <- !app_assoc. apply Permutation_app_head.
    apply Permutation_app_comm.
  - rewrite map_to_list_insert by done.
    rewrite item_pairs_cons. simpl. apply Permutation_cons_append.
Qed.

Lemma item_pairs_foldl_feed dn rs (m : gmap string Entry) :
  item_pairs (map_to_list (foldl (feed dn) m rs))
    ≡ₚ item_pairs (map_to_list m) ++ record_pairs dn rs.
Proof.
  unfold record_pairs.
  revert m. induction rs as [|r rs IH]; intros m; simpl.
  { by rewrite app_nil_r. }
  rewrite IH, item_pairs_feed, filter_cons.
  destruct (decide (r.1.1 = "@")) as [Hap|Hap].
  - rewrite decide_False by tauto. by rewrite app_nil_r.
  - rewrite decide_True by done. by rewrite <- app_assoc.
Qed.

Section Conservation.

Variable iteritems : gmap string Entry → list (string * Entry).
Hypothesis iteritems_items : ∀ m, iteritems m ≡ₚ map_to_list m.

(** X5: no value is lost and none is duplicated on the way from the zone
    to the change list: the (name, value) pairs the changes carry are,
    up to order, exactly the pairs of the zone's records of the requested
    class and type under non-apex owner names, each as often as it
    occurs there; in particular the totals agree. *)
Theorem changes_carry_every_value_once dn tv cv (z : Dns.Zone) rt :
  ∃ dns_changes,
    build_changes iteritems rt (aggregate dn tv cv z) = Some dns_changes
    ∧ change_pairs dns_changes ≡ₚ record_pairs dn (zone_records tv cv z)
    ∧ change_value_count dns_changes
        = length (filter (λ r : Record_, r.1.1 ≠ "@")
                    (zone_records tv cv z)).
Proof.
  eexists. split; [by apply build_changes_aggregate|].
  assert (∀ l : list (string * Entry),
            change_pairs
              ((λ item : string * Entry,
                 {| Action := UPSERT;
                    RRSet := {| Name := item.1; Type_ := rt;
                                TTL := default 0%Z (Py.int (ttl item.2));
                                ResourceRecords :=
                                  Build_ResourceRecord <$> records item.2 |} |})
               <$> l)
            = item_pairs l) as Hpairs.
  { intros l. unfold change_pairs, item_pairs.
    induction l as [|item l IH]; [done|].
    rewrite fmap_cons, !bind_cons, IH. f_equal. simpl.
    by rewrite <- list_fmap_compose. }
  assert (item_pairs (iteritems (aggregate dn tv cv z))
            ≡ₚ record_pairs dn (zone_records tv cv z)) as Hperm.
  { rewrite iteritems_items, aggregate_zone_records.
    by rewrite item_pairs_foldl_feed, map_to_list_empty. }
  split; [by rewrite Hpairs|].
  unfold change_value_count.
  transitivity (value_count (iteritems (aggregate dn tv cv z))).
  { unfold value_count. generalize (iteritems (aggregate dn tv cv z)).
    intros l. induction l as [|item l IH]; [done|].
    rewrite fmap_cons. cbn [sum_list_with]. rewrite IH.
    simpl. by rewrite length_fmap. }
  unfold value_count at 1. rewrite iteritems_items.
  fold (value_count (map_to_list (aggregate dn tv cv z))).
  rewrite aggregate_zone_records.
  rewrite value_count_foldl_feed, map_to_list_empty. done.
Qed.

End Conservation.

Lemma changes_carry_every_value_once_witness :
  (∀ m : gmap string Entry, map_to_list m ≡ₚ map_to_list m)
  ∧ ∃ dns_changes,
      build_changes map_to_list "A"
        (aggregate "example.com" Dns.A Dns.IN Sample.zone) = Some dns_changes
      ∧ change_pairs dns_changes
          ≡ₚ record_pairs "example.com" (zone_records Dns.A Dns.IN Sample.zone)
      ∧ change_value_count dns_changes
          = length (filter (λ r : Record_, r.1.1 ≠ "@")
                      (zone_records Dns.A Dns.IN Sample.zone)).
Proof.
  split; [intros m; reflexivity|].
  exact (changes_carry_every_value_once map_to_list (λ m, reflexivity _)
           "example.com" Dns.A Dns.IN Sample.zone "A").
Defined.

(** ** The batches one by one *)

Lemma lookup_xrange_from B fuel start stop i :
  0 < B → stop - start ≤ fuel →
  Py.xrange_from fuel start stop B !! i
    = if decide (start + i * B < stop) then Some (start + i * B) else None.
Proof.
  intros HB. revert start i.
  induction fuel as [|fuel IH]; intros start i Hfuel; simpl.
  { rewrite decide_False by lia. done. }
  destruct (Nat.ltb_spec start stop) as [Hlt|Hge].
  - destruct i as [|i]; simpl.
    + rewrite decide_True by lia. f_equal. lia.
    + rewrite IH by lia.
      destruct (decide (start + B + i * B < stop));
        [rewrite decide_True by lia; f_equal; lia
        |rewrite decide_False by lia; done].
  - rewrite decide_False by nia. done.
Qed.

Lemma lookup_batches (l : list Change) i :
  l ≠ [] →
  batches l !! i
    = if decide (98 * i < length l)
      then Some (take 98 (drop (98 * i) l)) else None.
Proof.
  intros Hne. assert (0 < length l) by (destruct l; [done | simpl; lia]).
  destruct (decide (98 < length l)) as [Hbig|Hsmall].
  - rewrite batches_large by done. unfold Py.xrange.
    rewrite list_lookup_fmap, lookup_xrange_from by lia.
    replace (0 + i * 98) with (98 * i) by lia.
    case_decide; [|done]. cbn [fmap option_fmap option_map]. unfold Py.slice.
    replace (98 * i + 98 - 98 * i) with 98 by lia. done.
  - rewrite batches_small by lia. destruct i as [|i].
    + rewrite decide_True by lia.
      replace (98 * 0) with 0 by lia. rewrite drop_0.
      rewrite take_ge by lia. done.
    + rewrite decide_False by lia. done.
Qed.

Lemma batches_are_consecutive_slices_aux (l : list Change) :
  l ≠ [] →
  Forall (λ b, 1 ≤ length b) (batches l)
  ∧ (∀ i b, batches l !! i = Some b → S i < length (batches l) →
       length b = 98).
Proof.
  intros Hne. split.
  - apply Forall_lookup. intros i b. rewrite lookup_batches by done.
    case_decide; [|done]. intros [= <-].
    rewrite length_take, length_drop. lia.
  - intros i b Hb Hnext.
    apply lookup_lt_is_Some_2 in Hnext as [b' Hb'].
    rewrite lookup_batches in Hb, Hb' by done.
    destruct (decide (98 * S i < length l)); [|done].
    destruct (decide (98 * i < length l)); [|done].
    injection Hb as <-. rewrite length_take, length_drop. lia.
Qed.

(** X6: for a non-empty change list, batch number [i] (from 0) is the
    run of at most 98 changes starting at position [98 * i], and there is
    none beyond the end of the list; so no batch is empty, and every batch
    before the last holds exactly 98 changes. *)
Theorem batches_are_consecutive_slices (l : list Change) :
  l ≠ [] →
  (∀ i, batches l !! i
          = if decide (98 * i < length l)
            then Some (take 98 (drop (98 * i) l)) else None)
  ∧ Forall (λ b, 1 ≤ length b) (batches l)
  ∧ (∀ i b, batches l !! i = Some b → S i < length (batches l) →
       length b = 98).
Proof.
  intros Hne. split; [intros i; by apply lookup_batches|].
  by apply batches_are_consecutive_slices_aux.
Qed.

Lemma batches_are_consecutive_slices_witness :
  let c := {| Action := UPSERT;
              RRSet := {| Name := "host.example.com."; Type_ := "A";
                          TTL := 300; ResourceRecords := [] |} |} in
  replicate 100 c ≠ []
  ∧ Forall (λ b, 1 ≤ length b) (batches (replicate 100 c)).
Proof.
  intros c.
  assert (replicate 100 c ≠ []) as Hne by discriminate.
  split; [exact Hne|].
  exact (proj1 (proj2 (batches_are_consecutive_slices (replicate 100 c) Hne))).
Defined.

(** ** What a run sends *)

Lemma change_of_Some rt item c :
  change_of rt item = Some c →
  Action c = UPSERT ∧ Type_ (RRSet c) = rt ∧ Name (RRSet c) = item.1.
Proof.
  unfold change_of. destruct (Py.int (ttl item.2)); simpl; [|done].
  by intros [= <-].
Qed.

Lemma build_changes_elem iteritems rt adict dns_changes c :
  build_changes iteritems rt adict = Some dns_changes → c ∈ dns_changes →
  Action c = UPSERT ∧ Type_ (RRSet c) = rt.
Proof.
  unfold build_changes. intros Hbuild%mapM_Some_1 Hc.
  apply list_elem_of_lookup in Hc as [i Hi].
  destruct (Forall2_lookup_r _ _ _ _ _ Hbuild Hi) as (item & _ & Hitem).
  apply change_of_Some in Hitem. tauto.
Qed.

Lemma elem_of_batches (l : list Change) b c :
  b ∈ batches l → c ∈ b → c ∈ l.
Proof.
  intros Hb Hc. rewrite <- (concat_batches l).
  apply list_elem_of_In, in_concat. exists b.
  by split; apply list_elem_of_In.
Qed.

(** X7: every request a run makes names the hosted zone given with [-z],
    carries at least one and at most 98 changes, and each of its changes
    is an UPSERT of the requested (supported) type taken from the run's
    change list: a run never deletes, never sends an empty or oversized
    batch, and never writes to another zone. *)
Theorem requests_are_well_formed iteritems opts z route53 req :
  req ∈ calls (update_records iteritems opts z route53) →
  hostedzone opts = Some (HostedZoneId req)
  ∧ 1 ≤ length (Changes req) ≤ 98
  ∧ recordtype opts ∈ supported_types
  ∧ Forall (λ c, c ∈ changes (update_records iteritems opts z route53)
                 ∧ Action c = UPSERT
                 ∧ Type_ (RRSet c) = recordtype opts)
      (Changes req).
Proof.
  unfold update_records.
  destruct (hostedzone opts) as [hz|]; simpl; [|by intros ?%elem_of_nil].
  destruct (length z =? 0); simpl; [by intros ?%elem_of_nil|].
  destruct (rdtype_of (recordtype opts)) as [[tv cv]|] eqn:Hrt; simpl;
    [|by intros ?%elem_of_nil].
  destruct (build_changes _ _ _) as [dns_changes|] eqn:Hbuild; simpl;
    [|by intros ?%elem_of_nil].
  destruct (Nat.eqb_spec (length dns_changes) 0) as [Hlen|Hlen]; simpl;
    [by intros ?%elem_of_nil|].
  assert (dns_changes ≠ []) as Hne by (by intros ->).
  destruct (submit_calls route53 hz (batches dns_changes) [])
    as (n & _ & -> & _). simpl.
  intros (b & -> & Hb)%list_elem_of_fmap. simpl.
  apply list_elem_of_lookup in Hb as [i Hi].
  apply lookup_take_Some in Hi as [Hi _].
  assert (b ∈ batches dns_changes) as Hb
    by (apply list_elem_of_lookup; eauto).
  split; [done|]. split.
  - split.
    + destruct (batches_are_consecutive_slices_aux dns_changes Hne) as [Hpos _].
      by apply (proj1 (Forall_forall _ _) Hpos).
    + by apply (proj1 (Forall_forall _ _) (Forall_length_batches dns_changes)).
  - split; [apply rdtype_of_supported; by eauto|].
    apply Forall_forall. intros c Hc.
    assert (c ∈ dns_changes) as Hin by (by eapply elem_of_batches).
    split; [done|]. by eapply build_changes_elem.
Qed.

Lemma requests_are_well_formed_witness :
  let host1 :=
    {| Action := UPSERT;
       RRSet := {| Name := "host1.example.com."; Type_ := "A"; TTL := 300;
                   ResourceRecords := [ {| Value := "10.0.0.1" |};
                                        {| Value := "10.0.0.2" |} ] |} |} in
  let host2 :=
    {| Action := UPSERT;
       RRSet := {| Name := "host2.example.com."; Type_ := "A"; TTL := 60;
                   ResourceRecords := [ {| Value := "10.0.0.3" |} ] |} |} in
  let req := {| HostedZoneId := "Z1234567891011";
                Changes := [host1; host2] |} in
  req ∈ calls (update_records map_to_list (Sample.options "A") Sample.zone
                 Sample.accepting)
  ∧ hostedzone (Sample.options "A") = Some (HostedZoneId req)
  ∧ 1 ≤ length (Changes req) ≤ 98.
Proof.
  intros host1 host2 req.
  assert (req ∈ calls (update_records map_to_list (Sample.options "A")
                         Sample.zone Sample.accepting)) as Hreq.
  { vm_compute. left. }
  split; [exact Hreq|].
  destruct (requests_are_well_formed map_to_list (Sample.options "A")
              Sample.zone Sample.accepting req Hreq) as (Hhz & Hlen & _).
  split; [exact Hhz | exact Hlen].
Defined.

Lemma submit_accepting (route53 : client) hz chunks made :
  (∀ made' req, route53 made' req = true) →
  submit route53 hz chunks made
    = (made ++ (Build_Request hz <$> chunks), Finished).
Proof.
  intros Hok. revert made.
  induction chunks as [|chunk rest IH]; intros made; simpl.
  { by rewrite app_nil_r. }
  rewrite Hok, IH, <- app_assoc. done.
Qed.

(** X8: against a destination that accepts every request the run never
    ends in [ClientError]; the requests carry the whole change list,
    each change once and in order; and when there are changes the run
    finishes after [ceil(L/98)] requests. *)
Theorem accepted_run_submits_everything iteritems opts z (route53 : client) :
  (∀ made req, route53 made req = true) →
  let r := update_records iteritems opts z route53 in
  result r ≠ ClientError
  ∧ concat (Changes <$> calls r) = changes r
  ∧ (changes r ≠ [] →
       result r = Finished
       ∧ length (calls r) = ceil_div (length (changes r)) 98).
Proof.
  intros Hok. unfold update_records.
  destruct (hostedzone opts) as [hz|]; simpl; [|done].
  destruct (length z =? 0); simpl; [done|].
  destruct (rdtype_of (recordtype opts)) as [[tv cv]|]; simpl; [|done].
  destruct (build_changes _ _ _) as [dns_changes|]; simpl; [|done].
  destruct (length dns_changes =? 0); simpl; [done|].
  rewrite submit_accepting by done. simpl.
  rewrite <- list_fmap_compose, list_fmap_id.
  split; [done|]. split; [apply concat_batches|].
  intros Hne. split; [done|].
  rewrite length_fmap. by apply length_batches.
Qed.

Lemma accepted_run_submits_everything_witness :
  (∀ made req, Sample.accepting made req = true)
  ∧ let r := update_records map_to_list (Sample.options "A") Sample.zone
               Sample.accepting in
    result r ≠ ClientError
    ∧ concat (Changes <$> calls r) = changes r
    ∧ (changes r ≠ [] →
         result r = Finished
         ∧ length (calls r) = ceil_div (length (changes r)) 98).
Proof.
  split; [reflexivity|].
  exact (accepted_run_submits_everything map_to_list (Sample.options "A")
           Sample.zone Sample.accepting (λ _ _, eq_refl)).
Defined.

Lemma submit_makes_a_call route53 hz chunk rest made :
  length made < length (submit route53 hz (chunk :: rest) made).1.
Proof.
  simpl. destruct (route53 made _).
  - destruct (submit_calls route53 hz rest (made ++ [Build_Request hz chunk]))
      as (n & _ & -> & _).
    rewrite !length_app. simpl. lia.
  - simpl. rewrite length_app. simpl. lia.
Qed.

Lemma owners_nil_iff_aggregate_empty dn tv cv (z : Dns.Zone) :
  aggregate dn tv cv z = ∅ ↔ owners (zone_records tv cv z) = [].
Proof.
  split.
  - intros Hempty.
    destruct (owners (zone_records tv cv z)) as [|name l] eqn:E; [done|].
    assert (recordname dn name ∈ dom (aggregate dn tv cv z)) as Hin.
    { rewrite dom_aggregate, E. set_solver. }
    rewrite Hempty, dom_empty_L in Hin. set_solver.
  - intros Hnone. apply (dom_empty_inv_L (D := gset string)).
    by rewrite dom_aggregate, Hnone.
Qed.

Section Reach.

Variable iteritems : gmap string Entry → list (string * Entry).
Hypothesis iteritems_items : ∀ m, iteritems m ≡ₚ map_to_list m.

(** X9: a run contacts Route 53 exactly when the hosted zone is set, the
    zone has nodes, the type is supported and some non-apex owner name has
    a record of that type; it then ends [Finished] or [ClientError].  In
    every other case it ends in [SystemExit] without a request.  [int]
    never raises on a stored TTL, so no run ends in [ValueError]. *)
Theorem route53_is_reached_iff opts (z : Dns.Zone) route53 :
  let r := update_records iteritems opts z route53 in
  result r ≠ ValueError
  ∧ (calls r ≠ [] ↔
       ∃ hz tv cv,
         hostedzone opts = Some hz ∧ z ≠ []
         ∧ rdtype_of (recordtype opts) = Some (tv, cv)
         ∧ owners (zone_records tv cv z) ≠ [])
  ∧ (calls r ≠ [] → result r = Finished ∨ result r = ClientError)
  ∧ (calls r = [] → ∃ why, result r = SystemExit why).
Proof.
  unfold update_records.
  destruct (hostedzone opts) as [hz|]; simpl.
  2: { split; [done|]. split; [|split; [done | by eauto]].
       split; [done|]. by intros (? & ? & ? & ? & _). }
  destruct z as [|item z]; simpl.
  { split; [done|]. split; [|split; [done | by eauto]].
    split; [done|]. by intros (? & ? & ? & _ & ? & _). }
  destruct (rdtype_of (recordtype opts)) as [[tv cv]|]; simpl.
  2: { split; [done|]. split; [|split; [done | by eauto]].
       split; [done|]. by intros (? & ? & ? & _ & _ & ? & _). }
  rewrite build_changes_aggregate by done. simpl.
  rewrite length_fmap, length_iteritems by done.
  destruct (Nat.eqb_spec (size (aggregate (domain opts) tv cv (item :: z))) 0)
    as [Hsize|Hsize]; simpl.
  - apply map_size_empty_iff, owners_nil_iff_aggregate_empty in Hsize.
    split; [done|]. split; [|split; [done | by eauto]].
    split; [done|]. intros (? & ? & ? & _ & _ & [= <- <-] & Hne). done.
  - assert (owners (zone_records tv cv (item :: z)) ≠ []) as Hown.
    { intros Hnone%(owners_nil_iff_aggregate_empty (domain opts)).
      apply Hsize. by rewrite Hnone, map_size_empty. }
    destruct (batches _) as [|chunk rest] eqn:Hb.
    { pose proof (concat_batches
        ((λ item0 : string * Entry,
            {| Action := UPSERT;
               RRSet := {| Name := item0.1; Type_ := recordtype opts;
                           TTL := default 0%Z (Py.int (ttl item0.2));
                           ResourceRecords :=
                             Build_ResourceRecord <$> records item0.2 |} |})
         <$> iteritems (aggregate (domain opts) tv cv (item :: z)))) as Hcat.
      rewrite Hb in Hcat. simpl in Hcat.
      apply (f_equal length) in Hcat.
      rewrite length_fmap, length_iteritems in Hcat by done.
      simpl in Hcat. lia. }
    pose proof (submit_makes_a_call route53 hz chunk rest []) as Hcall.
    assert ((submit route53 hz (chunk :: rest) []).1 ≠ []) as Hcalls.
    { intros Hnil. rewrite Hnil in Hcall. simpl in Hcall. lia. }
    split.
    { destruct (submit_result route53 hz (chunk :: rest) [])
        as [->|[-> _]]; done. }
    split; [|split].
    + split; [|done]. intros _. by exists hz, tv, cv.
    + intros _.
      destruct (submit_result route53 hz (chunk :: rest) [])
        as [->|[-> _]]; [by left | by right].
    + done.
Qed.

(** X10: no two changes of a run bear the same name, so a request never
    holds two changes for one record set. *)
Theorem change_names_are_distinct opts (z : Dns.Zone) route53 :
  NoDup (Name ∘ RRSet <$> changes (update_records iteritems opts z route53)).
Proof.
  unfold update_records.
  destruct (hostedzone opts) as [hz|]; simpl; [|apply NoDup_nil_2].
  destruct (length z =? 0); simpl; [apply NoDup_nil_2|].
  destruct (rdtype_of (recordtype opts)) as [[tv cv]|]; simpl;
    [|apply NoDup_nil_2].
  rewrite build_changes_aggregate by done. simpl.
  destruct (length _ =? 0); simpl; [apply NoDup_nil_2|].
  rewrite <- list_fmap_compose.
  by apply NoDup_iteritems_keys.
Qed.

End Reach.

Lemma route53_is_reached_iff_witness :
  (∀ m : gmap string Entry, map_to_list m ≡ₚ map_to_list m)
  ∧ result (update_records map_to_list (Sample.options "A") Sample.zone
              (λ _ _, false)) ≠ ValueError.
Proof.
  split; [intros m; reflexivity|].
  exact (proj1 (route53_is_reached_iff map_to_list (λ m, reflexivity _)
                  (Sample.options "A") Sample.zone (λ _ _, false))).
Defined.

Lemma change_names_are_distinct_witness :
  (∀ m : gmap string Entry, map_to_list m ≡ₚ map_to_list m)
  ∧ NoDup (Name ∘ RRSet
             <$> changes (update_records map_to_list (Sample.options "A")
                            Sample.zone Sample.accepting)).
Proof.
  split; [intros m; reflexivity|].
  exact (change_names_are_distinct map_to_list (λ m, reflexivity _)
           (Sample.options "A") Sample.zone Sample.accepting).
Defined.

(** ** The whole run *)

Lemma cli_add_record_Some d name rttl adict rds :
  Cli.add_record (Some d) name rttl adict rds
    = Some (add_record d name rttl adict rds).
Proof.
  unfold Cli.add_record, add_record.
  by destruct (String.eqb name "@").
Qed.

Lemma foldl_exc_total {A B} (f : A → B → option A) (g : A → B → A) a l :
  (∀ a x, f a x = Some (g a x)) →
  Cli.foldl_exc f a l = Some (foldl g a l).
Proof.
  intros Hfg. revert a. induction l as [|x l IH]; intros a; simpl; [done|].
  by rewrite Hfg, IH.
Qed.

Lemma cli_add_node_Some d tv cv adict item :
  Cli.add_node (Some d) tv cv adict item = Some (add_node d tv cv adict item).
Proof.
  unfold Cli.add_node, add_node.
  destruct (Dns.get_rdataset item.2 cv tv) as [rdataset|]; [|done].
  destruct (Dns.items rdataset) as [|v vs] eqn:E; [done|].
  apply foldl_exc_total. intros. apply cli_add_record_Some.
Qed.

Lemma cli_aggregate_Some d tv cv z :
  Cli.aggregate (Some d) tv cv z = Some (aggregate d tv cv z).
Proof.
  unfold Cli.aggregate, aggregate.
  apply foldl_exc_total. intros. apply cli_add_node_Some.
Qed.

Lemma foldl_exc_unchanged {A B} (f : A → B → option A) a l a' :
  (∀ a x a', f a x = Some a' → a' = a) →
  Cli.foldl_exc f a l = Some a' → a' = a.
Proof.
  intros Hf. revert a. induction l as [|x l IH]; intros a; simpl.
  { by intros [= <-]. }
  destruct (f a x) as [a1|] eqn:E; [|done].
  apply Hf in E as ->. apply IH.
Qed.

(** Without a domain nothing can be stored: the walk either raises or
    leaves the dictionary empty. *)
Lemma cli_aggregate_None tv cv z adict :
  Cli.aggregate None tv cv z = Some adict → adict = ∅.
Proof.
  unfold Cli.aggregate. apply foldl_exc_unchanged.
  intros a item a'. unfold Cli.add_node.
  destruct (Dns.get_rdataset item.2 cv tv) as [rdataset|]; [|by intros [= <-]].
  destruct (Dns.items rdataset) as [|v vs]; [by intros [= <-]|].
  apply foldl_exc_unchanged.
  intros a0 x a0'. unfold Cli.add_record.
  by destruct (String.eqb item.1 "@"); intros [= <-].
Qed.

Lemma whole_run_after_transfer_aux iteritems options xfr route53 server d z :
  Cli.dns_server options = Some server →
  Cli.domain options = Some d →
  xfr server (Some d) = Cli.Transferred z →
  Cli.update_records iteritems options xfr route53
    = {| Cli.events :=
           Cli.Xfr server (Some d)
             :: (Cli.Submit
                   <$> calls (update_records iteritems
                                (Cli.options_of options server d) z route53));
         Cli.final :=
           Cli.Ended (result (update_records iteritems
                                (Cli.options_of options server d) z
                                route53)) |}.
Proof.
  intros Hs Hd Hx. unfold Cli.update_records, update_records.
  rewrite Hs, Hd, Hx. simpl.
  destruct (Cli.hostedzone options) as [hz|]; [|done].
  destruct (length z =? 0); [done|].
  destruct (rdtype_of (Cli.recordtype options)) as [[tv cv]|]; [|done].
  rewrite cli_aggregate_Some.
  destruct (build_changes _ _ _) as [dns_changes|]; [|done].
  by destruct (length dns_changes =? 0).
Qed.

(** X11: with server and domain given and a transfer that answers with a
    zone, the whole of [update_records] asks for the transfer once, then
    makes exactly the requests of lines 59-161 on that zone, and ends as
    they end. *)
Theorem whole_run_after_transfer iteritems options xfr route53 server d z :
  Cli.dns_server options = Some server →
  Cli.domain options = Some d →
  xfr server (Some d) = Cli.Transferred z →
  let r := update_records iteritems (Cli.options_of options server d) z
             route53 in
  Cli.update_records iteritems options xfr route53
    = {| Cli.events := Cli.Xfr server (Some d) :: (Cli.Submit <$> calls r);
         Cli.final := Cli.Ended (result r) |}.
Proof.
  intros Hs Hd Hx. unfold Cli.update_records, update_records.
  rewrite Hs, Hd, Hx. simpl.
  destruct (Cli.hostedzone options) as [hz|]; [|done].
  destruct (length z =? 0); [done|].
  destruct (rdtype_of (Cli.recordtype options)) as [[tv cv]|]; [|done].
  rewrite cli_aggregate_Some.
  destruct (build_changes _ _ _) as [dns_changes|]; [|done].
  by destruct (length dns_changes =? 0).
Qed.

Lemma whole_run_after_transfer_witness :
  let options :=
    {| Cli.dns_server := Some "192.0.2.53";
       Cli.domain := Some "example.com";
       Cli.recordtype := "A";
       Cli.comment := "Managed by AXFR2Route53.py";
       Cli.hostedzone := Some "Z1234567891011" |} in
  let xfr : Cli.resolver := λ _ _, Cli.Transferred Sample.zone in
  let r := update_records map_to_list
             (Cli.options_of options "192.0.2.53" "example.com")
             Sample.zone Sample.accepting in
  Cli.update_records map_to_list options xfr Sample.accepting
    = {| Cli.events := Cli.Xfr "192.0.2.53" (Some "example.com")
                         :: (Cli.Submit <$> calls r);
         Cli.final := Cli.Ended (result r) |}.
Proof.
  intros options xfr.
  exact (whole_run_after_transfer map_to_list options xfr Sample.accepting
           "192.0.2.53" "example.com" Sample.zone eq_refl eq_refl eq_refl).
Defined.

(** X12: without [-s] the run contacts nobody and ends with the exit for
    a missing server; with [-s] it asks for exactly one transfer, from the
    given server for the given domain, before anything else, and whatever
    follows is a request to Route 53. *)
Theorem transfer_comes_first iteritems options xfr route53 :
  let t := Cli.update_records iteritems options xfr route53 in
  match Cli.dns_server options with
  | None => Cli.events t = [] ∧ Cli.final t = Cli.NoDNSServer
  | Some server =>
      Cli.final t ≠ Cli.NoDNSServer
      ∧ ∃ reqs, Cli.events t
                  = Cli.Xfr server (Cli.domain options)
                      :: (Cli.Submit <$> reqs)
  end.
Proof.
  unfold Cli.update_records.
  destruct (Cli.dns_server options) as [server|]; [|done].
  destruct (xfr server _) as [z| |]; simpl;
    [|by split; [|exists []]..].
  destruct (Cli.hostedzone options) as [hz|]; simpl;
    [|by split; [|exists []]].
  destruct (length z =? 0); simpl; [by split; [|exists []]|].
  destruct (rdtype_of _) as [[tv cv]|]; simpl; [|by split; [|exists []]].
  destruct (Cli.aggregate _ _ _ _) as [adict|]; simpl;
    [|by split; [|exists []]].
  destruct (build_changes _ _ _) as [dns_changes|]; simpl;
    [|by split; [|exists []]].
  destruct (length dns_changes =? 0); simpl; [by split; [|exists []]|].
  split; [done|]. by eexists.
Qed.

(** X13: the exit for a missing domain is decided by the transfer alone:
    the run ends with it exactly when a server is given and the transfer
    raises [AttributeError], whether or not [-d] was given; the script
    itself never looks at the domain before line 116. *)
Theorem no_domain_exit_iff iteritems options xfr route53 :
  Cli.final (Cli.update_records iteritems options xfr route53) = Cli.NoDomain
  ↔ ∃ server, Cli.dns_server options = Some server
              ∧ xfr server (Cli.domain options) = Cli.AttributeError.
Proof.
  unfold Cli.update_records.
  destruct (Cli.dns_server options) as [server|]; simpl.
  2: { split; [done | by intros (? & ? & _)]. }
  destruct (xfr server _) as [z| |] eqn:Hx; simpl.
  2: { split; [by eauto | done]. }
  2: { split; [done | intros (? & [= <-] & ?); congruence]. }
  split; [|intros (? & [= <-] & ?); congruence].
  destruct (Cli.hostedzone options) as [hz|]; simpl; [|done].
  destruct (length z =? 0); simpl; [done|].
  destruct (rdtype_of _) as [[tv cv]|]; simpl; [|done].
  destruct (Cli.aggregate _ _ _ _) as [adict|]; simpl; [|done].
  destruct (build_changes _ _ _) as [dns_changes|]; simpl; [|done].
  by destruct (length dns_changes =? 0).
Qed.

Section WholeRun.

Variable iteritems : gmap string Entry → list (string * Entry).
Hypothesis iteritems_items : ∀ m, iteritems m ≡ₚ map_to_list m.

(** X14: Route 53 receives a request only when server and domain are
    given and the transfer answered with a zone, and the request is then
    one of those lines 59-161 make on that zone: a missing server or
    domain, or a failed transfer, never leads to a write. *)
Theorem no_write_without_transfer options xfr route53 req :
  Cli.Submit req ∈ Cli.events (Cli.update_records iteritems options xfr route53) →
  ∃ server d z,
    Cli.dns_server options = Some server
    ∧ Cli.domain options = Some d
    ∧ xfr server (Some d) = Cli.Transferred z
    ∧ req ∈ calls (update_records iteritems
                     (Cli.options_of options server d) z route53).
Proof.
  assert (∀ s dom, Cli.Submit req ∈ [Cli.Xfr s dom] → False) as Hno.
  { intros s dom H. apply list_elem_of_singleton in H. done. }
  destruct (Cli.dns_server options) as [server|] eqn:Hs.
  2: { unfold Cli.update_records. rewrite Hs. by intros ?%elem_of_nil. }
  destruct (xfr server (Cli.domain options)) as [z| |] eqn:Hx.
  2, 3: unfold Cli.update_records; rewrite Hs, Hx; simpl;
        intros H; by apply Hno in H.
  destruct (Cli.domain options) as [d|] eqn:Hd.
  - rewrite (whole_run_after_transfer_aux iteritems options xfr route53
               server d z Hs Hd Hx). simpl.
    intros H. apply elem_of_cons in H as [H|H]; [done|].
    apply list_elem_of_fmap in H as (req' & [= <-] & Hreq).
    by exists server, d, z.
  - unfold Cli.update_records. rewrite Hs, Hd, Hx. simpl.
    destruct (Cli.hostedzone options) as [hz|]; simpl;
      [|intros H; by apply Hno in H].
    destruct (length z =? 0); simpl; [intros H; by apply Hno in H|].
    destruct (rdtype_of _) as [[tv cv]|]; simpl;
      [|intros H; by apply Hno in H].
    destruct (Cli.aggregate None tv cv z) as [adict|] eqn:Hagg; simpl;
      [|intros H; by apply Hno in H].
    apply cli_aggregate_None in Hagg as ->.
    unfold build_changes.
    assert (iteritems ∅ = []) as ->.
    { apply Permutation_nil_r. by rewrite iteritems_items, map_to_list_empty. }
    simpl. intros H. by apply Hno in H.
Qed.

End WholeRun.

Lemma no_write_without_transfer_witness :
  let options :=
    {| Cli.dns_server := Some "192.0.2.53";
       Cli.domain := Some "example.com";
       Cli.recordtype := "A";
       Cli.comment := "Managed by AXFR2Route53.py";
       Cli.hostedzone := Some "Z1234567891011" |} in
  let xfr : Cli.resolver := λ _ _, Cli.Transferred Sample.zone_one_host in
  let req :=
    {| HostedZoneId := "Z1234567891011";
       Changes :=
         [ {| Action := UPSERT;
              RRSet := {| Name := "host2.example.com."; Type_ := "A";
                          TTL := 60;
                          ResourceRecords := [ {| Value := "10.0.0.3" |} ]
                       |} |} ] |} in
  (∀ m : gmap string Entry, map_to_list m ≡ₚ map_to_list m)
  ∧ Cli.Submit req
      ∈ Cli.events (Cli.update_records map_to_list options xfr
                      Sample.accepting)
  ∧ ∃ server d z,
      Cli.dns_server options = Some server
      ∧ Cli.domain options = Some d
      ∧ xfr server (Some d) = Cli.Transferred z
      ∧ req ∈ calls (update_records map_to_list
                       (Cli.options_of options server d) z Sample.accepting).
Proof.
  intros options xfr req.
  assert (Cli.Submit req
            ∈ Cli.events (Cli.update_records map_to_list options xfr
                            Sample.accepting)) as Hreq.
  { vm_compute. right; left. }
  split; [intros m; reflexivity|]. split; [exact Hreq|].
  exact (no_write_without_transfer map_to_list (λ m, reflexivity _)
           options xfr Sample.accepting req Hreq).
Defined.

(** ** The table of record types *)

Lemma rdtype_of_cases rt tv cv :
  rdtype_of rt = Some (tv, cv) →
  cv = Dns.IN
  ∧ (rt, tv) ∈ [ ("A", Dns.A); ("AAAA", Dns.AAAA); ("CNAME", Dns.CNAME);
                 ("MX", Dns.MX); ("NS", Dns.NS); ("PTR", Dns.PTR);
                 ("SPF", Dns.SPF); ("TXT", Dns.TXT); ("SRV", Dns.SRV) ].
Proof.
  unfold rdtype_of.
  repeat match goal with
         | |- context [String.eqb rt ?s] =>
             destruct (String.eqb_spec rt s) as [->|?];
             [intros [= <- <-]; split; [done|];
              rewrite !elem_of_cons; tauto|]
         end.
  done.
Qed.

(** X15: the conditional chain selects class IN for every supported
    type, and two different type names never select the same record
    type: what is fetched is determined by, and determines, the name
    sent to Route 53 as the type. *)
Theorem rdtype_of_injective rt1 rt2 tv cv1 cv2 :
  rdtype_of rt1 = Some (tv, cv1) →
  rdtype_of rt2 = Some (tv, cv2) →
  rt1 = rt2 ∧ cv1 = Dns.IN ∧ cv2 = Dns.IN.
Proof.
  intros [-> H1]%rdtype_of_cases [-> H2]%rdtype_of_cases.
  split; [|done].
  rewrite !elem_of_cons, elem_of_nil in H1, H2.
  destruct H1 as [H1|[H1|[H1|[H1|[H1|[H1|[H1|[H1|[H1|[]]]]]]]]]];
    destruct H2 as [H2|[H2|[H2|[H2|[H2|[H2|[H2|[H2|[H2|[]]]]]]]]]];
    pose proof (f_equal fst H1) as Hr1; pose proof (f_equal snd H1) as Ht1;
    pose proof (f_equal fst H2) as Hr2; pose proof (f_equal snd H2) as Ht2;
    simpl in Hr1, Hr2, Ht1, Ht2; subst rt1 rt2;
    first [reflexivity
          | exfalso; rewrite Ht1 in Ht2; vm_compute in Ht2; discriminate Ht2].
Qed.

Lemma rdtype_of_injective_witness :
  rdtype_of "MX" = Some (Dns.MX, Dns.IN)
  ∧ "MX" = "MX" ∧ Dns.IN = Dns.IN ∧ Dns.IN = Dns.IN.
Proof.
  split; [reflexivity|].
  exact (rdtype_of_injective "MX" "MX" Dns.MX Dns.IN Dns.IN eq_refl eq_refl).
Defined.

Section EndToEnd.

Variable iteritems : gmap string Entry → list (string * Entry).
Hypothesis iteritems_items : ∀ m, iteritems m ≡ₚ map_to_list m.

(** X16: end to end, for a zone with distinct owner names: a node under a
    non-apex name that has a non-empty record set of the requested type
    gets exactly one change in the run's change list, an UPSERT named
    [<name>.<domain>.] of the requested type whose TTL is the TTL of that
    record set (the detour through text loses nothing) and whose values
    are the records of the set in their order. *)
Theorem node_gets_its_change opts (z : Dns.Zone) route53
    hz tv cv name node rdataset :
  hostedzone opts = Some hz →
  rdtype_of (recordtype opts) = Some (tv, cv) →
  NoDup z.*1 → (name, node) ∈ z → name ≠ "@" →
  Dns.get_rdataset node cv tv = Some rdataset →
  Dns.items rdataset ≠ [] →
  filter (λ c, Name (RRSet c) = recordname (domain opts) name)
    (changes (update_records iteritems opts z route53))
  = [ {| Action := UPSERT;
         RRSet := {| Name := recordname (domain opts) name;
                     Type_ := recordtype opts;
                     TTL := Dns.ttl rdataset;
                     ResourceRecords :=
                       Build_ResourceRecord <$> Dns.items rdataset |} |} ].
Proof.
  intros Hhz Hrt Hnd Hin Hap Hget Hitems.
  assert (aggregate (domain opts) tv cv z !! recordname (domain opts) name
            = Some {| records := Dns.items rdataset;
                      ttl := Py.str (Dns.ttl rdataset) |}) as He.
  { rewrite (lookup_aggregate_node _ tv cv z name node) by done.
    rewrite Hget. by destruct (Dns.items rdataset). }
  unfold update_records. rewrite Hhz, Hrt.
  destruct z as [|item z']; [by apply elem_of_nil in Hin|].
  cbn [length Nat.eqb].
  rewrite build_changes_aggregate by done. cbv zeta.
  rewrite length_fmap, length_iteritems by done.
  destruct (Nat.eqb_spec (size (aggregate (domain opts) tv cv (item :: z'))) 0)
    as [Hsize|Hsize].
  { apply map_size_empty_iff in Hsize. by rewrite Hsize in He. }
  cbn [changes].
  rewrite filter_fmap_comm. cbn [Name RRSet].
  rewrite (filter_key_NoDup _ _ _
             (NoDup_iteritems_keys iteritems iteritems_items _)
             (proj2 (elem_of_iteritems iteritems iteritems_items _ _ _) He)).
  simpl. by rewrite int_str.
Qed.

End EndToEnd.

Lemma node_gets_its_change_witness :
  (∀ m : gmap string Entry, map_to_list m ≡ₚ map_to_list m)
  ∧ NoDup Sample.zone.*1
  ∧ filter (λ c, Name (RRSet c) = recordname "example.com" "host2")
      (changes (update_records map_to_list (Sample.options "A") Sample.zone
                  Sample.accepting))
    = [ {| Action := UPSERT;
           RRSet := {| Name := recordname "example.com" "host2";
                       Type_ := "A";
                       TTL := 60;
                       ResourceRecords := [ {| Value := "10.0.0.3" |} ] |} |} ].
Proof.
  assert (NoDup Sample.zone.*1) as Hnd.
  { apply (bool_decide_unpack (NoDup Sample.zone.*1)). by vm_compute. }
  split; [intros m; reflexivity|]. split; [exact Hnd|].
  apply (node_gets_its_change map_to_list (λ m, reflexivity _)
           (Sample.options "A") Sample.zone Sample.accepting
           "Z1234567891011" Dns.A Dns.IN "host2"
           [Sample.a_records 60 ["10.0.0.3"]] (Sample.a_records 60 ["10.0.0.3"])).
  - reflexivity.
  - reflexivity.
  - exact Hnd.
  - right; right; left.
  - discriminate.
  - reflexivity.
  - discriminate.
Defined.

(** ** The TTL stored for a name *)




(** ** The batches of a change list *)

Lemma changes_of_requests hz (chunks : list (list Change)) :
  Changes <$> (Build_Request hz <$> chunks) = chunks.
Proof. rewrite <- list_fmap_compose. apply list_fmap_id. Qed.

(** Every run ends through lines 137-161 or stops before them with
    nothing built and nothing sent. *)
Lemma update_records_finish iteritems opts z route53 :
  ∃ hz, calls (update_records iteritems opts z route53)
        = (finish route53 hz (recordtype opts)
             (changes (update_records iteritems opts z route53))).1.
Proof.
  unfold update_records, finish.
  destruct (hostedzone opts) as [hz|]; simpl; [|by exists ""].
  exists hz.
  destruct (length z =? 0); simpl; [done|].
  destruct (rdtype_of (recordtype opts)) as [[tv cv]|]; simpl; [|done].
  destruct (build_changes _ _ _) as [dns_changes|]; simpl; [|done].
  destruct (length dns_changes =? 0) eqn:E; simpl; [done | by rewrite E].
Qed.

(** C3: for every change list of length L, lines 137-161 cut it into
    [ceil(L/98)] batches of at most 98 changes each whose concatenation
    in order is the list itself, none for the empty list, and request
    them one by one in that order: the requests made carry an initial
    segment of the batches, and all of them when the destination accepts
    every request.  The requests of every run arise in this way from the
    change list of the run. *)
Theorem C3_batches_partition (route53 : client) hz rt (l : list Change) :
  (∃ chunks,
     length chunks = ceil_div (length l) 98
     ∧ Forall (λ b, length b ≤ 98) chunks
     ∧ concat chunks = l
     ∧ (∃ n, Changes <$> (finish route53 hz rt l).1 = take n chunks)
     ∧ ((∀ made req, route53 made req = true) →
          Changes <$> (finish route53 hz rt l).1 = chunks))
  ∧ (∀ iteritems opts z,
       ∃ hz', calls (update_records iteritems opts z route53)
              = (finish route53 hz' (recordtype opts)
                   (changes (update_records iteritems opts z route53))).1).
Proof.
  split; [|intros; apply update_records_finish].
  unfold finish. destruct l as [|c l].
  - exists []. split; [by vm_compute|].
    split; [constructor|]. split; [done|]. split; [by exists 0 | done].
  - exists (batches (c :: l)).
    change (length (c :: l) =? 0) with false. cbv iota.
    split; [by apply length_batches|].
    split; [apply Forall_length_batches|].
    split; [apply concat_batches|]. split.
    + destruct (submit_calls route53 hz (batches (c :: l)) [])
        as (n & _ & -> & _).
      exists n. simpl. apply changes_of_requests.
    + intros Hok. rewrite submit_accepting by done. simpl.
      apply changes_of_requests.
Qed.

(** ** Two runs over the same zone *)

Lemma aggregate_Permutation dn tv cv (z1 z2 : Dns.Zone) :
  NoDup z1.*1 → z1 ≡ₚ z2 →
  aggregate dn tv cv z1 = aggregate dn tv cv z2.
Proof.
  intros Hnd1 Hperm.
  assert (NoDup z2.*1) as Hnd2 by by rewrite <- Hperm.
  apply map_eq. intros k. apply option_eq. intros e.
  rewrite !lookup_aggregate_iff by done.
  by setoid_rewrite Hperm.
Qed.

(** X17: what two runs over the same nodes with the same options have in
    common when nothing is assumed about the order in which either run's
    dictionaries are walked, nor about the destination: their change
    lists hold the same changes, with the same field values, each as
    often, possibly in another order. *)
Theorem change_lists_agree_up_to_order
    iteritems1 iteritems2 opts (z1 z2 : Dns.Zone) route53_1 route53_2 :
  (∀ m, iteritems1 m ≡ₚ map_to_list m) →
  (∀ m, iteritems2 m ≡ₚ map_to_list m) →
  NoDup z1.*1 → z1 ≡ₚ z2 →
  changes (update_records iteritems1 opts z1 route53_1)
    ≡ₚ changes (update_records iteritems2 opts z2 route53_2).
Proof.
  intros Hit1 Hit2 Hnd Hperm. unfold update_records.
  destruct (hostedzone opts) as [hz|]; [|done].
  rewrite <- (Permutation_length Hperm).
  destruct (length z1 =? 0); [done|].
  destruct (rdtype_of (recordtype opts)) as [[tv cv]|]; [|done].
  rewrite <- (aggregate_Permutation (domain opts) tv cv z1 z2) by done.
  rewrite !build_changes_aggregate by done. cbv zeta.
  rewrite !length_fmap, !length_iteritems by done.
  destruct (size _ =? 0); [done|]. simpl.
  by rewrite Hit1, Hit2.
Qed.

Lemma change_lists_agree_up_to_order_witness :
  (∀ m : gmap string Entry, map_to_list m ≡ₚ map_to_list m)
  ∧ (∀ m : gmap string Entry, reverse (map_to_list m) ≡ₚ map_to_list m)
  ∧ NoDup Sample.zone.*1
  ∧ Sample.zone ≡ₚ reverse Sample.zone
  ∧ changes (update_records map_to_list (Sample.options "A") Sample.zone
               Sample.accepting)
      ≡ₚ changes (update_records (λ m, reverse (map_to_list m))
                    (Sample.options "A") (reverse Sample.zone)
                    (λ _ _, false)).
Proof.
  assert (NoDup Sample.zone.*1) as Hnd.
  { apply (bool_decide_unpack (NoDup Sample.zone.*1)). by vm_compute. }
  assert (Sample.zone ≡ₚ reverse Sample.zone) as Hperm
    by (symmetry; apply reverse_Permutation).
  split; [intros m; reflexivity|].
  split; [intros m; apply reverse_Permutation|].
  split; [exact Hnd|]. split; [exact Hperm|].
  exact (change_lists_agree_up_to_order map_to_list
           (λ m, reverse (map_to_list m)) (Sample.options "A")
           Sample.zone (reverse Sample.zone) Sample.accepting (λ _ _, false)
           (λ m, reflexivity _) (λ m, reverse_Permutation _) Hnd Hperm).
Defined.
